(** * Recipe book (PySide6, MVC): the CRUD contract of the store, the
      repository and the controller's interaction modes.

    The development embeds [model/database.py], [model/recipe_model.py],
    [view/main_window.py] and [controller/recipe_controller.py].

    - A Python [str] is a list of Unicode code points.
    - The SQLite table [recipes] is the list of its rows in storage (rowid)
      order together with the [sqlite_sequence] counter that AUTOINCREMENT
      keeps for it.
    - A method is a function from the state it can reach to an [outcome]:
      either it returns a value and a new state, or it raises. *)

From Stdlib Require Import ZArith NArith List Bool Lia String Ascii Sorted.
From stdpp Require Import base option list gmap.

Local Open Scope Z_scope.

(** ** Python strings *)

Module Str.

Definition str : Type := list N.

(** A literal, code point by code point (Latin-1 range). *)
Fixpoint py (s : string) : str :=
  match s with
  | EmptyString => []
  | String c s' => N_of_ascii c :: py s'
  end.

(** [str.isspace] on one code point: CPython's [_PyUnicode_IsWhitespace]. *)
Definition isspace (c : N) : bool :=
  ((9 <=? c) && (c <=? 13) || (28 <=? c) && (c <=? 32)
   || (c =? 133) || (c =? 160) || (c =? 5760)
   || (8192 <=? c) && (c <=? 8202)
   || (c =? 8232) || (c =? 8233) || (c =? 8239) || (c =? 8287)
   || (c =? 12288))%N.

Fixpoint lstrip (s : str) : str :=
  match s with
  | [] => []
  | c :: s' => if isspace c then lstrip s' else s
  end.

Definition rstrip (s : str) : str := rev (lstrip (rev s)).

(** [s.strip()] with no argument. *)
Definition strip (s : str) : str := rstrip (lstrip s).

(** Truth value of a string: [if s:] holds when [s] is not empty. *)
Definition truthy (s : str) : bool :=
  match s with [] => false | _ => true end.

End Str.
Import Str.

(** ** Values, exceptions and the method monad *)

(** What a method hands back to its caller when it is a procedure: Python's
    [None], or an integer where one is returned. *)
Inductive value : Type :=
| VNone
| VInt (z : Z).

Inductive exn : Type :=
| OperationalError.   (* sqlite3.OperationalError: SQLITE_FULL *)

Inductive outcome (S A : Type) : Type :=
| Returned (a : A) (s : S)
| Raised (e : exn) (s : S).
Arguments Returned {S A} a s.
Arguments Raised {S A} e s.

Definition M (S A : Type) : Type := S -> outcome S A.

Definition ret {S A} (a : A) : M S A := fun s => Returned a s.

Definition bind {S A B} (m : M S A) (k : A -> M S B) : M S B :=
  fun s => match m s with
           | Returned a s' => k a s'
           | Raised e s' => Raised e s'
           end.

Definition modify {S} (f : S -> S) : M S value := fun s => Returned VNone (f s).

Notation "x <- m ;; k" := (bind m (fun x => k))
  (at level 100, m at next level, right associativity).
Notation "m ;; k" := (bind m (fun _ => k))
  (at level 100, right associativity).

(** The state a method leaves behind, whether it returned or raised. *)
Definition final_state {S A} (o : outcome S A) : S :=
  match o with Returned _ s => s | Raised _ s => s end.

(** ** Data layer: [RecipeDatabase] *)

Module RecipeDatabase.

(** One fetched row: [(id, title, ingredients, instructions, image_path)]. *)
Definition row : Type := Z * str * str * str * option str.

Definition row_id (r : row) : Z :=
  let '(i, _, _, _, _) := r in i.

(** The table and the AUTOINCREMENT counter ([sqlite_sequence.seq]:
    the largest rowid ever assigned). *)
Record Store : Type := mkStore {
  rows : list row;
  seq : Z
}.

(** [CREATE TABLE IF NOT EXISTS] on a fresh file. *)
Definition create_table : Store := {| rows := []; seq := 0 |}.

Definition MAX_ROWID : Z := 9223372036854775807.

Definition MIN_ROWID : Z := -9223372036854775808.

(** The integers SQLite stores, and the only ones sqlite3 accepts as a
    parameter of a statement: signed, 64 bits. *)
Definition sqlite_int (z : Z) : Prop := MIN_ROWID <= z <= MAX_ROWID.

(** Largest key of the table's b-tree, if it has any row. *)
Fixpoint last_rowid (rs : list row) : option Z :=
  match rs with
  | [] => None
  | r :: rs' =>
      match last_rowid rs' with
      | None => Some (row_id r)
      | Some m => Some (Z.max (row_id r) m)
      end
  end.

(** Rowid selection of [INTEGER PRIMARY KEY AUTOINCREMENT]: one more than
    the largest rowid the table holds or ever held; [None] when the largest
    possible rowid has been used (the insert then fails with SQLITE_FULL). *)
Definition new_rowid (db : Store) : option Z :=
  let v := match last_rowid (rows db) with
           | None => Some 1
           | Some k => if k =? MAX_ROWID then None else Some (k + 1)
           end in
  match v with
  | None => None
  | Some v =>
      if seq db =? MAX_ROWID then None
      else Some (Z.max v (seq db + 1))
  end.

(** [INSERT INTO recipes (title, ingredients, instructions, image_path)
    VALUES (?, ?, ?, ?)], then commit.  No [return] statement. *)
Definition insert_recipe (title ingredients instructions : str)
    (image_path : option str) : M Store value :=
  fun db =>
    match new_rowid db with
    | None => Raised OperationalError db
    | Some v =>
        Returned VNone
          {| rows := rows db ++ [(v, title, ingredients, instructions, image_path)];
             seq := v |}
    end.

(** [SELECT * FROM recipes], [fetchall()]. *)
Definition get_all_recipes : M Store (list row) :=
  fun db => Returned (rows db) db.

(** [UPDATE recipes SET title = ?, ingredients = ?, instructions = ?,
    image_path = ? WHERE id = ?], then commit.  The statement as SQLite runs
    it, for a [recipe_id] that is a [sqlite_int]; any other integer is
    refused by sqlite3 (OverflowError) before the statement runs. *)
Definition update_recipe (recipe_id : Z) (title ingredients instructions : str)
    (image_path : option str) : M Store value :=
  fun db =>
    Returned VNone
      {| rows := map (fun r => if row_id r =? recipe_id
                               then (row_id r, title, ingredients, instructions, image_path)
                               else r) (rows db);
         seq := seq db |}.

(** [DELETE FROM recipes WHERE id=?], then commit.  As for the update,
    for a [recipe_id] that is a [sqlite_int]. *)
Definition delete_recipe (recipe_id : Z) : M Store value :=
  fun db =>
    Returned VNone
      {| rows := List.filter (fun r => negb (row_id r =? recipe_id)) (rows db);
         seq := seq db |}.

(** Ids of the stored rows, in storage order. *)
Definition ids (db : Store) : list Z := map row_id (rows db).

End RecipeDatabase.

(** ** Model layer: [Recipe] and [RecipeModel] *)

Record Recipe : Type := mkRecipe {
  id : Z;
  title : str;
  ingredients : str;
  instructions : str;
  image_path : option str
}.

Module RecipeModel.

Import RecipeDatabase.

(** A fetched row unpacked into the constructor of [Recipe]. *)
Definition Recipe_of_row (r : row) : Recipe :=
  let '(i, t, g, s, p) := r in mkRecipe i t g s p.

(** The model object holds only [self.db]. *)
Definition add_recipe (title ingredients instructions : str)
    (image_path : option str) : M Store value :=
  RecipeDatabase.insert_recipe title ingredients instructions image_path ;;
  ret VNone.

Definition get_all_recipes : M Store (list Recipe) :=
  rows <- RecipeDatabase.get_all_recipes ;;
  ret (map Recipe_of_row rows).

(** The [for] loop with its early [return]. *)
Fixpoint scan (recipe_id : Z) (recipes : list Recipe) : option Recipe :=
  match recipes with
  | [] => None
  | recipe :: rest =>
      if id recipe =? recipe_id then Some recipe else scan recipe_id rest
  end.

Definition get_recipe_by_id (recipe_id : Z) : M Store (option Recipe) :=
  recipes <- get_all_recipes ;;
  ret (scan recipe_id recipes).

Definition update_recipe (recipe : Recipe) : M Store value :=
  RecipeDatabase.update_recipe (id recipe) (title recipe) (ingredients recipe)
    (instructions recipe) (image_path recipe) ;;
  ret VNone.

Definition delete_recipe (recipe_id : Z) : M Store value :=
  RecipeDatabase.delete_recipe recipe_id ;;
  ret VNone.

End RecipeModel.

(** ** View layer: [RecipeMainWindow]

    Only the state the controller reads or writes: the three text inputs, the
    image label, which buttons are enabled, the list widget with its current
    item, and the three attributes under "Internal state". *)

Inductive Mode : Type := ModeAdd | ModeEdit | ModeView.

Definition Mode_eqb (a b : Mode) : bool :=
  match a, b with
  | ModeAdd, ModeAdd | ModeEdit, ModeEdit | ModeView, ModeView => true
  | _, _ => false
  end.

(** What the image label shows: a text, or the scaled pixmap of a file. *)
Inductive label : Type :=
| LabelText (s : str)
| LabelPixmap (path : str).

Module RecipeMainWindow.

Record View : Type := mkView {
  title_input : str;
  ingredients_input : str;
  instructions_input : str;
  image_label : label;
  add_button : bool;
  save_button : bool;
  cancel_button : bool;
  recipe_list : list (str * Z);      (* item text, data at role 32 *)
  current_row : option nat;          (* the list widget's current item *)
  selected_image_path : option str;
  current_recipe_id : option Z;
  mode : Mode
}.

Definition no_image : label := LabelText (py "No Image Selected").

Definition set_mode (m : Mode) (v : View) : View :=
  let '(a, s, c) := match m with
                    | ModeAdd => (true, false, false)
                    | ModeEdit => (false, true, true)
                    | ModeView => (true, false, false)
                    end in
  {| title_input := title_input v;
     ingredients_input := ingredients_input v;
     instructions_input := instructions_input v;
     image_label := image_label v;
     add_button := a;
     save_button := s;
     cancel_button := c;
     recipe_list := recipe_list v;
     current_row := current_row v;
     selected_image_path := selected_image_path v;
     current_recipe_id := current_recipe_id v;
     mode := m |}.

(** The window as [__init__] leaves it. *)
Definition init : View :=
  set_mode ModeAdd
    {| title_input := []; ingredients_input := []; instructions_input := [];
       image_label := no_image;
       add_button := true; save_button := true; cancel_button := true;
       recipe_list := []; current_row := None;
       selected_image_path := None; current_recipe_id := None;
       mode := ModeAdd |}.

Definition get_input_data (v : View) : str * str * str * option str :=
  (title_input v, ingredients_input v, instructions_input v,
   selected_image_path v).

Definition clear_inputs (v : View) : View :=
  set_mode ModeAdd
    {| title_input := [];
       ingredients_input := [];
       instructions_input := [];
       image_label := no_image;
       add_button := add_button v;
       save_button := save_button v;
       cancel_button := cancel_button v;
       recipe_list := recipe_list v;
       current_row := current_row v;
       selected_image_path := None;
       current_recipe_id := None;
       mode := mode v |}.

(** [loads]: whether [QPixmap(path)] is a non-null pixmap. *)
Definition set_image_path (path : str) (loads : bool) (v : View) : View :=
  {| title_input := title_input v;
     ingredients_input := ingredients_input v;
     instructions_input := instructions_input v;
     image_label := if loads then LabelPixmap path else image_label v;
     add_button := add_button v;
     save_button := save_button v;
     cancel_button := cancel_button v;
     recipe_list := recipe_list v;
     current_row := current_row v;
     selected_image_path := Some path;
     current_recipe_id := current_recipe_id v;
     mode := mode v |}.

(** [clear()] drops the items and with them the current item.  The
    selection signal that [clear()] sends while an item is selected is not
    followed into [display_selected_recipe]; the items built and the store
    do not depend on it. *)
Definition update_recipe_list (recipes : list Recipe) (v : View) : View :=
  {| title_input := title_input v;
     ingredients_input := ingredients_input v;
     instructions_input := instructions_input v;
     image_label := image_label v;
     add_button := add_button v;
     save_button := save_button v;
     cancel_button := cancel_button v;
     recipe_list := map (fun recipe => (title recipe, id recipe)) recipes;
     current_row := None;
     selected_image_path := selected_image_path v;
     current_recipe_id := current_recipe_id v;
     mode := mode v |}.

Definition get_selected_recipe_id (v : View) : option Z :=
  match current_row v with
  | Some k => match recipe_list v !! k with
              | Some item => Some (snd item)
              | None => None
              end
  | None => None
  end.

Definition get_current_recipe_id (v : View) : option Z :=
  current_recipe_id v.

(** [if recipe.image_path:] is false for [None] and for the empty string.
    The three inputs are given the text of the recipe; a text widget is
    taken to hold the text it is given. *)
Definition show_recipe_details (recipe : Recipe) (v : View) : View :=
  let shown := match image_path recipe with
               | Some p => truthy p
               | None => false
               end in
  {| title_input := title recipe;
     ingredients_input := ingredients recipe;
     instructions_input := instructions recipe;
     image_label := match image_path recipe with
                    | Some p => if truthy p then LabelPixmap p else no_image
                    | None => no_image
                    end;
     add_button := add_button v;
     save_button := save_button v;
     cancel_button := cancel_button v;
     recipe_list := recipe_list v;
     current_row := current_row v;
     selected_image_path := if shown then image_path recipe else None;
     current_recipe_id := Some (id recipe);
     mode := mode v |}.

(** The user edits the three text inputs. *)
Definition user_types (t g s : str) (v : View) : View :=
  {| title_input := t;
     ingredients_input := g;
     instructions_input := s;
     image_label := image_label v;
     add_button := add_button v;
     save_button := save_button v;
     cancel_button := cancel_button v;
     recipe_list := recipe_list v;
     current_row := current_row v;
     selected_image_path := selected_image_path v;
     current_recipe_id := current_recipe_id v;
     mode := mode v |}.

(** The user makes the [k]-th list item current (none when out of range). *)
Definition user_selects (k : nat) (v : View) : View :=
  {| title_input := title_input v;
     ingredients_input := ingredients_input v;
     instructions_input := instructions_input v;
     image_label := image_label v;
     add_button := add_button v;
     save_button := save_button v;
     cancel_button := cancel_button v;
     recipe_list := recipe_list v;
     current_row := if decide (k < length (recipe_list v))%nat then Some k else None;
     selected_image_path := selected_image_path v;
     current_recipe_id := current_recipe_id v;
     mode := mode v |}.

End RecipeMainWindow.

(** ** Controller layer: [RecipeController] *)

Module RecipeController.

Import RecipeDatabase RecipeMainWindow.

(** [self.model] (which holds the database) and [self.view]. *)
Record App : Type := mkApp {
  model : Store;
  view : View
}.

Definition gets {A} (f : App -> A) : M App A :=
  fun st => Returned (f st) st.

(** A call into the model: it runs on the store; an exception it raises
    leaves the view as it was. *)
Definition call_model {A} (m : M Store A) : M App A :=
  fun st => match m (model st) with
            | Returned a db => Returned a {| model := db; view := view st |}
            | Raised e db => Raised e {| model := db; view := view st |}
            end.

Definition call_view (f : View -> View) : M App value :=
  modify (fun st => {| model := model st; view := f (view st) |}).

(** Truth value of an optional integer: [if recipe_id:] is false for
    [None] and for [0]. *)
Definition truthy_id (recipe_id : option Z) : bool :=
  match recipe_id with
  | Some n => negb (n =? 0)
  | None => false
  end.

Definition refresh_recipe_list : M App value :=
  recipes <- call_model RecipeModel.get_all_recipes ;;
  call_view (update_recipe_list recipes).

Definition add_recipe : M App value :=
  m <- gets (fun st => mode (view st)) ;;
  if negb (Mode_eqb m ModeAdd) then
    (call_view clear_inputs ;;
     call_view (set_mode ModeAdd) ;;
     ret VNone)
  else
    (d <- gets (fun st => get_input_data (view st)) ;;
     let '(title, ingredients, instructions, image_path) := d in
     if negb (truthy (strip title)) then ret VNone
     else
       (call_model (RecipeModel.add_recipe (strip title) (strip ingredients)
                      (strip instructions) image_path) ;;
        refresh_recipe_list ;;
        call_view clear_inputs ;;
        ret VNone)).

Definition edit_selected_recipe : M App value :=
  recipe_id <- gets (fun st => get_selected_recipe_id (view st)) ;;
  match recipe_id with
  | None => ret VNone
  | Some recipe_id =>
      recipe <- call_model (RecipeModel.get_recipe_by_id recipe_id) ;;
      match recipe with
      | Some recipe =>
          call_view (show_recipe_details recipe) ;;
          call_view (set_mode ModeEdit) ;;
          ret VNone
      | None => ret VNone
      end
  end.

Definition save_edited_recipe : M App value :=
  recipe_id <- gets (fun st => get_current_recipe_id (view st)) ;;
  match recipe_id with
  | None => ret VNone
  | Some recipe_id =>
      d <- gets (fun st => get_input_data (view st)) ;;
      let '(title, ingredients, instructions, image_path) := d in
      if negb (truthy (strip title)) then ret VNone
      else
        (let updated_recipe :=
           mkRecipe recipe_id (strip title) (strip ingredients)
             (strip instructions) image_path in
         call_model (RecipeModel.update_recipe updated_recipe) ;;
         refresh_recipe_list ;;
         recipe <- call_model (RecipeModel.get_recipe_by_id recipe_id) ;;
         match recipe with
         | Some recipe => call_view (show_recipe_details recipe)
         | None => ret VNone
         end ;;
         call_view (set_mode ModeView) ;;
         ret VNone)
  end.

Definition cancel_edit : M App value :=
  recipe_id <- gets (fun st => get_current_recipe_id (view st)) ;;
  (if truthy_id recipe_id then
     match recipe_id with
     | Some recipe_id =>
         recipe <- call_model (RecipeModel.get_recipe_by_id recipe_id) ;;
         match recipe with
         | Some recipe => call_view (show_recipe_details recipe)
         | None => ret VNone
         end
     | None => ret VNone
     end
   else call_view clear_inputs) ;;
  call_view (set_mode ModeAdd) ;;
  ret VNone.

Definition delete_selected_recipe : M App value :=
  recipe_id <- gets (fun st => get_selected_recipe_id (view st)) ;;
  match recipe_id with
  | None => ret VNone
  | Some recipe_id =>
      call_model (RecipeModel.delete_recipe recipe_id) ;;
      call_view clear_inputs ;;
      refresh_recipe_list ;;
      ret VNone
  end.

Definition display_selected_recipe : M App value :=
  recipe_id <- gets (fun st => get_selected_recipe_id (view st)) ;;
  if truthy_id recipe_id then
    match recipe_id with
    | Some recipe_id =>
        recipe <- call_model (RecipeModel.get_recipe_by_id recipe_id) ;;
        match recipe with
        | Some recipe =>
            call_view (show_recipe_details recipe) ;;
            call_view (set_mode ModeView) ;;
            ret VNone
        | None => ret VNone
        end
    | None => ret VNone
    end
  else ret VNone.

(** [file_path]: what the file dialog hands back (empty when dismissed). *)
Definition select_image (file_path : str) (loads : bool) : M App value :=
  if truthy file_path then
    call_view (set_image_path file_path loads) ;; ret VNone
  else ret VNone.

(** [__init__]: the signals are connected and the list is loaded. *)
Definition init (db : Store) : App :=
  final_state (refresh_recipe_list {| model := db; view := RecipeMainWindow.init |}).

(** What reaches the controller from the window. *)
Inductive intent : Type :=
| ClickAdd
| ClickEdit
| ClickSave
| ClickCancel
| ClickDelete
| ClickImage (file_path : str) (loads : bool)
| SelectRow (k : nat)
| TypeText (t g s : str).

(** One turn of the event loop.  A slot that raises leaves the state it
    had reached.  Slots run whether or not their button is enabled, and
    [SelectRow] runs its slot also when the item is the current one already
    (the window then sends no signal). *)
Definition handle (i : intent) (st : App) : App :=
  match i with
  | ClickAdd => final_state (add_recipe st)
  | ClickEdit => final_state (edit_selected_recipe st)
  | ClickSave => final_state (save_edited_recipe st)
  | ClickCancel => final_state (cancel_edit st)
  | ClickDelete => final_state (delete_selected_recipe st)
  | ClickImage file_path loads => final_state (select_image file_path loads st)
  | SelectRow k =>
      final_state
        ((call_view (user_selects k) ;; display_selected_recipe) st)
  | TypeText t g s =>
      {| model := model st; view := user_types t g s (view st) |}
  end.

Definition run (intents : list intent) (st : App) : App :=
  fold_left (fun st i => handle i st) intents st.

End RecipeController.

(** ** Vocabulary of the specification *)

(** Empty or whitespace-only. *)
Definition blank (s : str) : bool := forallb isspace s.

(** A stored title as the data model wants it: not empty, and trimmed. *)
Definition trimmed_nonempty (s : str) : Prop := s <> [] /\ strip s = s.

(** Every persisted recipe has such a title. *)
Definition titles_ok (db : RecipeDatabase.Store) : Prop :=
  Forall (fun r => trimmed_nonempty (title (RecipeModel.Recipe_of_row r)))
    (RecipeDatabase.rows db).

(** A sequence of repository [add_recipe] calls.  The result pairs the ids
    of the rows each successful call appended (what the table holds beyond
    the rows it held before the call) with the final store. *)
Fixpoint add_all (calls : list (str * str * str * option str))
    (db : RecipeDatabase.Store) : list Z * RecipeDatabase.Store :=
  match calls with
  | [] => ([], db)
  | (t, g, s, p) :: calls' =>
      match RecipeModel.add_recipe t g s p db with
      | Returned _ db' =>
          let '(l, d) := add_all calls' db' in
          (drop (length (RecipeDatabase.rows db)) (RecipeDatabase.ids db') ++ l, d)
      | Raised _ db' => add_all calls' db'
      end
  end.

(** The rows an operation on [recipe_id] does not address, in storage
    order. *)
Definition others (recipe_id : Z) (db : RecipeDatabase.Store) : list RecipeDatabase.row :=
  List.filter (fun r => negb (RecipeDatabase.row_id r =? recipe_id))
    (RecipeDatabase.rows db).

(** [i] lies above every id of the table and above its counter. *)
Definition above (db : RecipeDatabase.Store) (i : Z) : Prop :=
  List.Forall (fun j => j < i) (RecipeDatabase.ids db) /\ RecipeDatabase.seq db < i.

(** The direct keyed lookup the specification allows in place of the scan:
    a point query on the primary key index of the table. *)
Module KeyedStore.

Import RecipeDatabase.

(** The primary key index: row by id. *)
Definition pk_index (db : Store) : gmap Z row :=
  list_to_map (map (fun r => (row_id r, r)) (rows db)).

Definition fetch_by_id (recipe_id : Z) : M Store (option row) :=
  fun db => Returned (pk_index db !! recipe_id) db.

Definition get_recipe_by_id (recipe_id : Z) : M Store (option Recipe) :=
  r <- fetch_by_id recipe_id ;;
  ret (option_map RecipeModel.Recipe_of_row r).

End KeyedStore.

(** ** Entry point: [main.py] *)

Module Main.

Import RecipeDatabase RecipeController.

Definition nl : str := [10%N].

(** [carbonara_img], [cake_img]: the two paths joined under the directory
    of the script; [carbonara_exists], [cake_exists]: what [os.path.exists]
    answers for them. *)
Definition populate_sample_data (carbonara_img cake_img : str)
    (carbonara_exists cake_exists : bool) : M Store value :=
  recipes <- RecipeModel.get_all_recipes ;;
  match recipes with
  | [] =>
      RecipeModel.add_recipe
        (py "Spaghetti Carbonara")
        (py "Spaghetti, Eggs, Parmesan cheese, Bacon, Pepper")
        (py "1. Boil pasta." ++ nl ++ py "2. Fry bacon." ++ nl ++
         py "3. Mix eggs and cheese." ++ nl ++ py "4. Combine all with pasta.")
        (if carbonara_exists then Some carbonara_img else None) ;;
      RecipeModel.add_recipe
        (py "Chocolate Cake")
        (py "Flour, Cocoa powder, Sugar, Eggs, Butter, Baking powder")
        (py "1. Mix dry ingredients." ++ nl ++ py "2. Add wet ingredients." ++ nl ++
         py "3. Bake at 180" ++ [176%N] ++ py "C for 35 min.")
        (if cake_exists then Some cake_img else None) ;;
      ret VNone
  | _ :: _ => ret VNone
  end.

(** [main] up to [view.show()]: the controller is built on the opened
    database, the samples are inserted if needed, the list is refreshed. *)
Definition main (carbonara_img cake_img : str)
    (carbonara_exists cake_exists : bool) (db : Store) : outcome App value :=
  (call_model (populate_sample_data carbonara_img cake_img
                 carbonara_exists cake_exists) ;;
   refresh_recipe_list) (RecipeController.init db).

End Main.

(** ** Invariants of the running application *)

(** The table as SQLite keeps it: rows in ascending rowid order (so no id
    occurs twice), none above the AUTOINCREMENT counter. *)
Definition wf (db : RecipeDatabase.Store) : Prop :=
  StronglySorted Z.lt (RecipeDatabase.ids db)
  /\ List.Forall (fun i => i <= RecipeDatabase.seq db) (RecipeDatabase.ids db).

(** Ids as a table created by this program has them: all at least 1. *)
Definition ids_positive (db : RecipeDatabase.Store) : Prop :=
  List.Forall (fun i => 1 <= i) (RecipeDatabase.ids db)
  /\ 0 <= RecipeDatabase.seq db.

(** What [get_all_recipes] returns on a store. *)
Definition recipes_of (db : RecipeDatabase.Store) : list Recipe :=
  map RecipeModel.Recipe_of_row (RecipeDatabase.rows db).

(** The items of the list widget that [update_recipe_list] builds. *)
Definition items_of (db : RecipeDatabase.Store) : list (str * Z) :=
  map (fun recipe => (title recipe, id recipe))
    (map RecipeModel.Recipe_of_row (RecipeDatabase.rows db)).

(** The list widget shows the stored recipes, in storage order. *)
Definition list_synced (st : RecipeController.App) : Prop :=
  RecipeMainWindow.recipe_list (RecipeController.view st) =
  items_of (RecipeController.model st).

(** The recipe loaded in the form, if any, is in the store. *)
Definition current_ok (st : RecipeController.App) : Prop :=
  forall n, RecipeMainWindow.current_recipe_id (RecipeController.view st) = Some n ->
            In n (RecipeDatabase.ids (RecipeController.model st)).

(** Which buttons a mode enables. *)
Definition buttons_ok (v : RecipeMainWindow.View) : Prop :=
  RecipeMainWindow.add_button v = negb (Mode_eqb (RecipeMainWindow.mode v) ModeEdit)
  /\ RecipeMainWindow.save_button v = Mode_eqb (RecipeMainWindow.mode v) ModeEdit
  /\ RecipeMainWindow.cancel_button v = Mode_eqb (RecipeMainWindow.mode v) ModeEdit.

(** ** Facts about [strip] *)

Section StripFacts.

Lemma lstrip_head (s : str) :
  match lstrip s with
  | [] => True
  | c :: _ => isspace c = false
  end.
Proof.
  induction s as [|c s IH]; simpl; [exact I|].
  destruct (isspace c) eqn:E; [exact IH | exact E].
Qed.

Lemma lstrip_blank (s : str) : blank s = true -> lstrip s = [].
Proof.
  induction s as [|c s IH]; simpl; [reflexivity|].
  intros H. apply andb_true_iff in H as [Hc Hs].
  rewrite Hc. auto.
Qed.

Lemma lstrip_nil_blank (s : str) : lstrip s = [] -> blank s = true.
Proof.
  induction s as [|c s IH]; simpl; [reflexivity|].
  destruct (isspace c); [auto | discriminate].
Qed.

Lemma lstrip_snoc (a : str) (c : N) :
  isspace c = false -> lstrip (a ++ [c]) = lstrip a ++ [c].
Proof.
  intros Hc. induction a as [|x a IH]; simpl.
  - now rewrite Hc.
  - destruct (isspace x); [exact IH | reflexivity].
Qed.

Lemma rstrip_cons (c : N) (u : str) :
  isspace c = false -> rstrip (c :: u) = c :: rstrip u.
Proof.
  intros Hc. unfold rstrip. simpl rev at 2.
  rewrite lstrip_snoc by exact Hc.
  rewrite rev_app_distr. reflexivity.
Qed.

Lemma strip_blank (s : str) : blank s = true -> strip s = [].
Proof.
  intros H. unfold strip. now rewrite lstrip_blank.
Qed.

Lemma strip_nil_blank (s : str) : strip s = [] -> blank s = true.
Proof.
  unfold strip. intros H.
  pose proof (lstrip_head s) as Hh.
  destruct (lstrip s) as [|c u] eqn:E.
  - now apply lstrip_nil_blank.
  - rewrite rstrip_cons in H by exact Hh. discriminate.
Qed.

Lemma strip_idempotent (s : str) : strip (strip s) = strip s.
Proof.
  unfold strip at 2 3.
  pose proof (lstrip_head s) as Hh.
  destruct (lstrip s) as [|c u]; [reflexivity|].
  rewrite rstrip_cons by exact Hh.
  unfold strip. simpl lstrip. rewrite Hh.
  rewrite rstrip_cons by exact Hh.
  f_equal. unfold rstrip. rewrite rev_involutive.
  set (w := rev u). clearbody w. clear.
  f_equal.
  induction w as [|x w IH]; simpl; [reflexivity|].
  destruct (isspace x) eqn:E; [exact IH|].
  simpl. now rewrite E.
Qed.

Lemma truthy_strip (s : str) : truthy (strip s) = negb (blank s).
Proof.
  destruct (blank s) eqn:E.
  - now rewrite strip_blank.
  - destruct (strip s) eqn:F; [|reflexivity].
    apply strip_nil_blank in F. congruence.
Qed.

Lemma strip_trimmed_nonempty (s : str) :
  truthy (strip s) = true -> trimmed_nonempty (strip s).
Proof.
  intros H. split.
  - intros E. rewrite E in H. discriminate.
  - apply strip_idempotent.
Qed.

End StripFacts.

(** ** Facts about the store *)

Section StoreFacts.

Import RecipeDatabase.

Lemma last_rowid_bound (rs : list row) (k : Z) :
  last_rowid rs = Some k -> List.Forall (fun r => row_id r <= k) rs.
Proof.
  revert k. induction rs as [|r rs IH]; intros k H; [constructor|].
  simpl in H. destruct (last_rowid rs) as [m|] eqn:E.
  - inversion H; subst. constructor; [lia|].
    eapply List.Forall_impl; [|apply IH; reflexivity].
    simpl. intros; lia.
  - inversion H; subst. destruct rs as [|r' rs'].
    + constructor; [lia|constructor].
    + simpl in E. destruct (last_rowid rs'); discriminate.
Qed.

Lemma last_rowid_none (rs : list row) : last_rowid rs = None -> rs = [].
Proof.
  destruct rs as [|r rs]; [reflexivity|].
  simpl. destruct (last_rowid rs); discriminate.
Qed.

(** The rowid AUTOINCREMENT picks is above every id the table holds and
    above the counter. *)
Lemma new_rowid_fresh (db : Store) (v : Z) :
  new_rowid db = Some v ->
  List.Forall (fun i => i < v) (ids db) /\ seq db < v.
Proof.
  unfold new_rowid, ids. intros H.
  destruct (last_rowid (rows db)) as [k|] eqn:E.
  - destruct (k =? MAX_ROWID); [discriminate|].
    destruct (seq db =? MAX_ROWID); [discriminate|].
    inversion H; subst. split; [|lia].
    apply List.Forall_map.
    eapply List.Forall_impl; [|apply last_rowid_bound; exact E].
    simpl. intros; lia.
  - destruct (seq db =? MAX_ROWID); [discriminate|].
    inversion H; subst. apply last_rowid_none in E. rewrite E.
    split; [constructor | lia].
Qed.

Lemma insert_recipe_returned (t g s : str) (p : option str) (db db' : Store) (a : value) :
  insert_recipe t g s p db = Returned a db' ->
  exists v, new_rowid db = Some v /\ a = VNone /\
            rows db' = rows db ++ [(v, t, g, s, p)] /\ seq db' = v.
Proof.
  unfold insert_recipe. destruct (new_rowid db) as [v|]; [|discriminate].
  intros H. inversion H; subst. exists v. auto.
Qed.

Lemma insert_recipe_raised (t g s : str) (p : option str) (db db' : Store) (e : exn) :
  insert_recipe t g s p db = Raised e db' -> db' = db.
Proof.
  unfold insert_recipe. destruct (new_rowid db); [discriminate|].
  intros H. now inversion H.
Qed.

Lemma add_recipe_eq (t g s : str) (p : option str) (db : Store) :
  RecipeModel.add_recipe t g s p db = insert_recipe t g s p db.
Proof.
  unfold RecipeModel.add_recipe, bind, ret, insert_recipe.
  destruct (new_rowid db); reflexivity.
Qed.

Lemma scan_app (rid : Z) (l1 l2 : list Recipe) :
  RecipeModel.scan rid (l1 ++ l2) =
  match RecipeModel.scan rid l1 with
  | Some r => Some r
  | None => RecipeModel.scan rid l2
  end.
Proof.
  induction l1 as [|r l1 IH]; simpl; [reflexivity|].
  destruct (id r =? rid); [reflexivity | exact IH].
Qed.

Lemma id_Recipe_of_row (r : row) : id (RecipeModel.Recipe_of_row r) = row_id r.
Proof. destruct r as [[[[i t] g] s] p]. reflexivity. Qed.

Lemma scan_absent (rid : Z) (rs : list row) :
  ~ In rid (map row_id rs) ->
  RecipeModel.scan rid (map RecipeModel.Recipe_of_row rs) = None.
Proof.
  induction rs as [|r rs IH]; simpl; [reflexivity|].
  intros H. rewrite id_Recipe_of_row.
  destruct (Z.eqb_spec (row_id r) rid) as [E|E]; [tauto|].
  apply IH. tauto.
Qed.

Lemma scan_some (rid : Z) (l : list Recipe) (r : Recipe) :
  RecipeModel.scan rid l = Some r -> id r = rid /\ In r l.
Proof.
  induction l as [|x l IH]; simpl; [discriminate|].
  destruct (Z.eqb_spec (id x) rid) as [E|E].
  - intros H. inversion H; subst. auto.
  - intros H. apply IH in H. tauto.
Qed.

Lemma scan_present (rid : Z) (rs : list row) :
  In rid (map row_id rs) ->
  exists r, RecipeModel.scan rid (map RecipeModel.Recipe_of_row rs) = Some r.
Proof.
  induction rs as [|x rs IH]; simpl; [tauto|].
  rewrite id_Recipe_of_row.
  destruct (Z.eqb_spec (row_id x) rid) as [E|E]; [eauto|].
  intros [H|H]; [contradiction | auto].
Qed.

Lemma get_recipe_by_id_eq (rid : Z) (db : Store) :
  RecipeModel.get_recipe_by_id rid db =
  Returned (RecipeModel.scan rid (map RecipeModel.Recipe_of_row (rows db))) db.
Proof. reflexivity. Qed.

(** Looking up the id an insert has just assigned finds the new row. *)
Lemma scan_inserted (db : Store) (v : Z) (t g s : str) (p : option str) :
  new_rowid db = Some v ->
  RecipeModel.scan v
    (map RecipeModel.Recipe_of_row (rows db ++ [(v, t, g, s, p)])) =
  Some (mkRecipe v t g s p).
Proof.
  intros H. apply new_rowid_fresh in H as [Hlt _].
  rewrite map_app, scan_app, scan_absent.
  - simpl. now rewrite Z.eqb_refl.
  - intros Hin. unfold ids in Hlt. rewrite List.Forall_forall in Hlt.
    apply Hlt in Hin. lia.
Qed.

End StoreFacts.

(** ** Update, delete and lookup on the store *)

Section UpdateDelete.

Import RecipeDatabase.

Lemma store_eq (db : Store) (rs : list row) :
  rs = rows db -> {| rows := rs; seq := seq db |} = db.
Proof. intros ->. destruct db; reflexivity. Qed.

Lemma update_rows_absent (rid : Z) (t g s : str) (p : option str) (rs : list row) :
  ~ In rid (map row_id rs) ->
  map (fun r => if row_id r =? rid then (row_id r, t, g, s, p) else r) rs = rs.
Proof.
  induction rs as [|r rs IH]; simpl; [reflexivity|].
  intros H. destruct (Z.eqb_spec (row_id r) rid) as [E|E]; [tauto|].
  f_equal. apply IH. tauto.
Qed.

Lemma update_rows_twice (rid : Z) (t g s : str) (p : option str) (rs : list row) :
  let f := fun r : row => if row_id r =? rid then (row_id r, t, g, s, p) else r in
  map f (map f rs) = map f rs.
Proof.
  intros f. rewrite map_map. apply map_ext. intros r. unfold f.
  destruct (Z.eqb_spec (row_id r) rid) as [E|E].
  - simpl. rewrite E, Z.eqb_refl. reflexivity.
  - destruct (Z.eqb_spec (row_id r) rid); [contradiction | reflexivity].
Qed.

Lemma delete_rows_absent (rid : Z) (rs : list row) :
  ~ In rid (map row_id (List.filter (fun r => negb (row_id r =? rid)) rs)).
Proof.
  rewrite in_map_iff. intros [r [E Hin]].
  apply filter_In in Hin as [_ Hb].
  rewrite E, Z.eqb_refl in Hb. discriminate.
Qed.

Lemma delete_rows_twice (rid : Z) (rs : list row) :
  let keep := fun r : row => negb (row_id r =? rid) in
  List.filter keep (List.filter keep rs) = List.filter keep rs.
Proof.
  intros keep. induction rs as [|r rs IH]; simpl; [reflexivity|].
  destruct (keep r) eqn:E; [|exact IH].
  simpl. rewrite E. f_equal. exact IH.
Qed.

Lemma pk_index_lookup (rid : Z) (rs : list row) :
  (list_to_map (map (fun r => (row_id r, r)) rs) : gmap Z row) !! rid =
  List.find (fun r => row_id r =? rid) rs.
Proof.
  induction rs as [|r rs IH]; simpl; [apply lookup_empty|].
  destruct (Z.eqb_spec (row_id r) rid) as [E|E].
  - subst. apply lookup_insert_eq.
  - rewrite lookup_insert_ne by exact E. exact IH.
Qed.

Lemma scan_find (rid : Z) (rs : list row) :
  RecipeModel.scan rid (map RecipeModel.Recipe_of_row rs) =
  option_map RecipeModel.Recipe_of_row (List.find (fun r => row_id r =? rid) rs).
Proof.
  induction rs as [|r rs IH]; simpl; [reflexivity|].
  rewrite id_Recipe_of_row.
  destruct (row_id r =? rid); [reflexivity | exact IH].
Qed.

End UpdateDelete.

(** ** Sequences of adds *)

Section AddSequences.

Import RecipeDatabase.

Lemma above_after_insert (db : Store) (v i : Z) (r : row) :
  row_id r = v -> seq db < v ->
  above {| rows := rows db ++ [r]; seq := v |} i ->
  v < i /\ above db i.
Proof.
  unfold above, ids. simpl. intros Hr Hsv [Hall Hs].
  rewrite map_app in Hall. apply List.Forall_app in Hall as [H1 H2].
  assert (Hv : v < i).
  { apply List.Forall_inv in H2. simpl in H2. lia. }
  repeat split; [exact Hv | exact H1 | lia].
Qed.

Lemma add_all_spec (calls : list (str * str * str * option str)) :
  forall db : Store,
    ids (snd (add_all calls db)) = ids db ++ fst (add_all calls db)
    /\ StronglySorted Z.lt (fst (add_all calls db))
    /\ List.Forall (above db) (fst (add_all calls db)).
Proof.
  induction calls as [|[[[t g] s] p] calls IH]; intros db; simpl.
  - rewrite app_nil_r. repeat split; constructor.
  - rewrite add_recipe_eq.
    destruct (insert_recipe t g s p db) as [a db'|e db'] eqn:E.
    + apply insert_recipe_returned in E as (v & Hv & _ & Hrows & Hseq).
      destruct (IH db') as (I1 & I2 & I3).
      destruct (add_all calls db') as [l d]. simpl in *.
      assert (Hids : ids db' = ids db ++ [v]).
      { unfold ids. rewrite Hrows, map_app. reflexivity. }
      assert (Hdrop : drop (length (rows db)) (ids db') = [v]).
      { rewrite Hids. unfold ids.
        replace (length (rows db)) with (length (map row_id (rows db)))
          by apply length_map.
        now rewrite drop_app_length. }
      rewrite Hdrop. simpl.
      assert (Habove : List.Forall (fun i => v < i /\ above db i) l).
      { eapply List.Forall_impl; [|exact I3].
        intros i Hi. destruct db' as [rs sq]. simpl in *. subst rs sq.
        apply new_rowid_fresh in Hv as [_ Hv].
        eapply above_after_insert; [| exact Hv | exact Hi]. reflexivity. }
      split; [|split].
      * rewrite I1, Hids, <- app_assoc. reflexivity.
      * constructor; [exact I2|].
        eapply List.Forall_impl; [|exact Habove]. simpl. tauto.
      * constructor.
        -- apply new_rowid_fresh in Hv. exact Hv.
        -- eapply List.Forall_impl; [|exact Habove]. simpl. tauto.
    + apply insert_recipe_raised in E. subst db'. apply IH.
Qed.

Lemma StronglySorted_lt_NoDup (l : list Z) :
  StronglySorted Z.lt l -> List.NoDup l.
Proof.
  induction 1 as [|a l Hs IH Ha]; constructor; [|exact IH].
  intros Hin. rewrite List.Forall_forall in Ha. apply Ha in Hin. lia.
Qed.

End AddSequences.

(** ** The claims about the store and the repository *)

Section StoreClaims.

Import RecipeDatabase.

(** Claim C2, as the code has it.  [insert_recipe] hands back [None], not
    an id; what it does is append one row whose id lies above every id of
    the table and above the counter.  For every sequence of [add_recipe]
    calls from any store, the ids of the appended rows are strictly
    increasing, hence pairwise distinct, and the table ends up holding its
    old ids followed by exactly these. *)
Theorem insert_assigns_distinct_ids
    (calls : list (str * str * str * option str))
    (t g s : str) (p : option str) (db : Store) :
  match insert_recipe t g s p db with
  | Returned a db' =>
      a = VNone /\
      exists v, rows db' = rows db ++ [(v, t, g, s, p)] /\ above db v
  | Raised _ db' => db' = db
  end
  /\ StronglySorted Z.lt (fst (add_all calls db))
  /\ List.NoDup (fst (add_all calls db))
  /\ ids (snd (add_all calls db)) = ids db ++ fst (add_all calls db).
Proof.
  split.
  - destruct (insert_recipe t g s p db) as [a db'|e db'] eqn:E.
    + apply insert_recipe_returned in E as (v & Hv & Ha & Hrows & _).
      split; [exact Ha|]. exists v. split; [exact Hrows|].
      apply new_rowid_fresh in Hv. exact Hv.
    + eapply insert_recipe_raised; exact E.
  - destruct (add_all_spec calls db) as (H1 & H2 & _).
    repeat split; [exact H2 | now apply StronglySorted_lt_NoDup | exact H1].
Qed.

(** Claim C2 as stated fails: on a fresh table the insert of "Soup"
    returns [None] while the row it appended has id 1. *)
Lemma insert_returns_no_id :
  insert_recipe (py "Soup") (py "Water,Salt") (py "Boil") None create_table =
    Returned VNone
      {| rows := [(1, py "Soup", py "Water,Salt", py "Boil", None)]; seq := 1 |}
  /\ ~ (exists db',
          insert_recipe (py "Soup") (py "Water,Salt") (py "Boil") None create_table =
          Returned (VInt 1) db').
Proof.
  split; [reflexivity|].
  intros [db' H]. vm_compute in H. discriminate.
Qed.

(** Claim C4.  For every store, [update_recipe] with an id (an integer
    SQLite can hold) that matches no row returns normally and leaves the
    store as it was: no row is created and no row is changed. *)
Theorem update_missing_id_is_noop
    (db : Store) (recipe_id : Z) (t g s : str) (p : option str) :
  sqlite_int recipe_id ->
  ~ In recipe_id (ids db) ->
  RecipeDatabase.update_recipe recipe_id t g s p db = Returned VNone db
  /\ RecipeModel.update_recipe (mkRecipe recipe_id t g s p) db = Returned VNone db.
Proof.
  intros _ H.
  assert (E : RecipeDatabase.update_recipe recipe_id t g s p db = Returned VNone db).
  { unfold RecipeDatabase.update_recipe. f_equal.
    apply store_eq. now apply update_rows_absent. }
  split; [exact E|].
  unfold RecipeModel.update_recipe, bind, ret.
  cbn [id title ingredients instructions image_path]. now rewrite E.
Qed.

Lemma update_missing_id_is_noop_witness :
  let db := {| rows := [(1, py "Soup", py "Water", py "Boil", None)]; seq := 1 |} in
  RecipeDatabase.update_recipe 999 (py "Stew") [] [] None db = Returned VNone db
  /\ RecipeModel.update_recipe (mkRecipe 999 (py "Stew") [] [] None) db = Returned VNone db.
Proof.
  intros db. apply (update_missing_id_is_noop db 999).
  - split; discriminate.
  - simpl. intros [H|[]]. discriminate.
Defined.

(** Claim C5.  For every store and every id (an integer SQLite can hold),
    [delete_recipe] returns normally; afterwards [get_recipe_by_id] on that
    id returns [None], and a second [delete_recipe] returns normally and
    leaves the store as the first one left it. *)
Theorem delete_is_final (db : Store) (recipe_id : Z) :
  sqlite_int recipe_id ->
  exists db',
    RecipeModel.delete_recipe recipe_id db = Returned VNone db'
    /\ RecipeModel.get_recipe_by_id recipe_id db' = Returned None db'
    /\ RecipeModel.delete_recipe recipe_id db' = Returned VNone db'
    /\ RecipeDatabase.delete_recipe recipe_id db' = Returned VNone db'.
Proof.
  intros _. eexists. split; [reflexivity|]. split; [|split].
  - rewrite get_recipe_by_id_eq. f_equal.
    apply scan_absent. simpl. apply delete_rows_absent.
  - unfold RecipeModel.delete_recipe, RecipeDatabase.delete_recipe, bind, ret.
    simpl. now rewrite delete_rows_twice.
  - unfold RecipeDatabase.delete_recipe. simpl. now rewrite delete_rows_twice.
Qed.

Lemma delete_is_final_witness :
  let db := {| rows := [(1, py "X", [], [], None); (2, py "Y", [], [], None)];
               seq := 2 |} in
  exists db',
    RecipeModel.delete_recipe 1 db = Returned VNone db'
    /\ RecipeModel.get_recipe_by_id 1 db' = Returned None db'
    /\ RecipeModel.delete_recipe 1 db' = Returned VNone db'
    /\ RecipeDatabase.delete_recipe 1 db' = Returned VNone db'.
Proof.
  intros db. apply (delete_is_final db 1). split; discriminate.
Defined.

(** Claim C6.  Applying the same [update_recipe] twice leaves the store,
    and so the stored row, exactly as applying it once. *)
Theorem update_is_idempotent (recipe : Recipe) (db : Store) :
  (RecipeModel.update_recipe recipe ;; RecipeModel.update_recipe recipe) db =
  RecipeModel.update_recipe recipe db
  /\ RecipeModel.get_recipe_by_id (id recipe)
       (final_state ((RecipeModel.update_recipe recipe ;;
                      RecipeModel.update_recipe recipe) db)) =
     RecipeModel.get_recipe_by_id (id recipe)
       (final_state (RecipeModel.update_recipe recipe db)).
Proof.
  assert (E : (RecipeModel.update_recipe recipe ;; RecipeModel.update_recipe recipe) db =
              RecipeModel.update_recipe recipe db).
  { unfold RecipeModel.update_recipe, RecipeDatabase.update_recipe, bind, ret.
    simpl. now rewrite update_rows_twice. }
  split; [exact E | now rewrite E].
Qed.

(** Claim C9.  For every store and every id, the scan over
    [get_all_recipes] returns what the keyed lookup on the primary key
    index returns: the recipe with that id, or [None]; neither changes
    the store. *)
Theorem scan_agrees_with_keyed_lookup (db : Store) (recipe_id : Z) :
  RecipeModel.get_recipe_by_id recipe_id db =
  KeyedStore.get_recipe_by_id recipe_id db.
Proof.
  rewrite get_recipe_by_id_eq.
  unfold KeyedStore.get_recipe_by_id, KeyedStore.fetch_by_id, bind, ret.
  unfold KeyedStore.pk_index. f_equal.
  rewrite pk_index_lookup. apply scan_find.
Qed.

End StoreClaims.

(** ** Frame of update and delete *)

Section Frame.

Import RecipeDatabase.

Lemma others_after_update (rid : Z) (t g s : str) (p : option str) (rs : list row) :
  let keep := fun r : row => negb (row_id r =? rid) in
  List.filter keep
    (map (fun r => if row_id r =? rid then (row_id r, t, g, s, p) else r) rs) =
  List.filter keep rs.
Proof.
  intros keep. subst keep.
  induction rs as [|r rs IH]; simpl; [reflexivity|].
  destruct (Z.eqb_spec (row_id r) rid) as [E|E]; simpl.
  - rewrite E, Z.eqb_refl. simpl. exact IH.
  - destruct (Z.eqb_spec (row_id r) rid); [contradiction|].
    simpl. f_equal. exact IH.
Qed.

Lemma update_keeps_index (rid : Z) (t g s : str) (p : option str)
    (rs : list row) (k : nat) (r : row) :
  row_id r <> rid ->
  (map (fun r => if row_id r =? rid then (row_id r, t, g, s, p) else r) rs !! k = Some r
   <-> rs !! k = Some r).
Proof.
  intros Hr. rewrite list_lookup_fmap.
  destruct (rs !! k) as [r0|]; simpl; [|tauto].
  destruct (Z.eqb_spec (row_id r0) rid) as [E|E]; [|tauto].
  split; intros H; inversion H; subst; simpl in *; contradiction.
Qed.

(** Claim C10.  [update_recipe] and [delete_recipe] on an id touch only
    the row with that id: the rows with a different id, taken in storage
    order with all their fields, are the same list before and after either
    operation.  Under update each of them also keeps its index in the
    table, whose length does not change; delete leaves exactly these rows
    and nothing else. *)
Theorem update_delete_frame
    (db : Store) (recipe_id : Z) (t g s : str) (p : option str) :
  let db_u := final_state (RecipeDatabase.update_recipe recipe_id t g s p db) in
  let db_d := final_state (RecipeDatabase.delete_recipe recipe_id db) in
  others recipe_id db_u = others recipe_id db
  /\ others recipe_id db_d = others recipe_id db
  /\ (forall (k : nat) (r : row),
        row_id r <> recipe_id ->
        (rows db_u !! k = Some r <-> rows db !! k = Some r))
  /\ length (rows db_u) = length (rows db)
  /\ rows db_d = others recipe_id db
  /\ seq db_u = seq db /\ seq db_d = seq db.
Proof.
  simpl. unfold others. simpl. repeat split.
  - apply others_after_update.
  - apply delete_rows_twice.
  - apply update_keeps_index; assumption.
  - apply update_keeps_index; assumption.
  - apply length_map.
Qed.

End Frame.

(** ** Facts about the controller *)

Section ControllerFacts.

Import RecipeDatabase RecipeMainWindow RecipeController.

Lemma Mode_eqb_eq (a b : Mode) : Mode_eqb a b = true <-> a = b.
Proof. destruct a, b; simpl; split; congruence. Qed.

Lemma app_eta (st : App) : {| model := model st; view := view st |} = st.
Proof. destruct st; reflexivity. Qed.

Lemma call_get_recipe_by_id (rid : Z) (st : App) :
  call_model (RecipeModel.get_recipe_by_id rid) st =
  Returned (RecipeModel.scan rid (map RecipeModel.Recipe_of_row (rows (model st)))) st.
Proof. unfold call_model. rewrite get_recipe_by_id_eq. now rewrite app_eta. Qed.

(** What the add slot does, case by case. *)
Lemma add_recipe_cases (st : App) :
  add_recipe st =
  if negb (Mode_eqb (mode (view st)) ModeAdd) then
    Returned VNone {| model := model st; view := clear_inputs (view st) |}
  else if blank (title_input (view st)) then Returned VNone st
  else
    match new_rowid (model st) with
    | None => Raised OperationalError st
    | Some v =>
        let db' :=
          {| rows := rows (model st) ++
                     [(v, strip (title_input (view st)),
                       strip (ingredients_input (view st)),
                       strip (instructions_input (view st)),
                       selected_image_path (view st))];
             seq := v |} in
        Returned VNone
          {| model := db';
             view := clear_inputs
                       (update_recipe_list
                          (map RecipeModel.Recipe_of_row (rows db')) (view st)) |}
    end.
Proof.
  unfold add_recipe, bind, gets.
  destruct (negb (Mode_eqb (mode (view st)) ModeAdd)); [reflexivity|].
  unfold get_input_data. rewrite truthy_strip, negb_involutive.
  destruct (blank (title_input (view st))); [reflexivity|].
  unfold call_model, RecipeModel.add_recipe, insert_recipe, bind, ret.
  destruct (new_rowid (model st)); simpl; [reflexivity|].
  now rewrite app_eta.
Qed.

Lemma save_edited_recipe_model (st : App) :
  model (final_state (save_edited_recipe st)) =
  match current_recipe_id (view st) with
  | None => model st
  | Some rid =>
      if blank (title_input (view st)) then model st
      else final_state
             (RecipeDatabase.update_recipe rid
                (strip (title_input (view st)))
                (strip (ingredients_input (view st)))
                (strip (instructions_input (view st)))
                (selected_image_path (view st)) (model st))
  end.
Proof.
  unfold save_edited_recipe, bind, gets, get_current_recipe_id.
  destruct (current_recipe_id (view st)) as [rid|]; [|reflexivity].
  unfold get_input_data. rewrite truthy_strip, negb_involutive.
  destruct (blank (title_input (view st))); [reflexivity|].
  simpl.
  match goal with
  | |- context [RecipeModel.scan ?a ?b] => destruct (RecipeModel.scan a b)
  end; reflexivity.
Qed.

Lemma cancel_edit_model (st : App) : model (final_state (cancel_edit st)) = model st.
Proof.
  unfold cancel_edit, bind, gets, get_current_recipe_id.
  destruct (current_recipe_id (view st)) as [rid|]; simpl; [|reflexivity].
  destruct (rid =? 0); simpl; [reflexivity|].
  match goal with
  | |- context [RecipeModel.scan ?a ?b] => destruct (RecipeModel.scan a b)
  end; reflexivity.
Qed.

Lemma edit_selected_recipe_model (st : App) :
  model (final_state (edit_selected_recipe st)) = model st.
Proof.
  unfold edit_selected_recipe, bind, gets.
  destruct (get_selected_recipe_id (view st)) as [rid|]; simpl; [|reflexivity].
  match goal with
  | |- context [RecipeModel.scan ?a ?b] => destruct (RecipeModel.scan a b)
  end; reflexivity.
Qed.

Lemma display_selected_recipe_model (st : App) :
  model (final_state (display_selected_recipe st)) = model st.
Proof.
  unfold display_selected_recipe, bind, gets.
  destruct (get_selected_recipe_id (view st)) as [rid|]; simpl; [|reflexivity].
  destruct (rid =? 0); simpl; [reflexivity|].
  match goal with
  | |- context [RecipeModel.scan ?a ?b] => destruct (RecipeModel.scan a b)
  end; reflexivity.
Qed.

Lemma delete_selected_recipe_model (st : App) :
  model (final_state (delete_selected_recipe st)) =
  match get_selected_recipe_id (view st) with
  | None => model st
  | Some rid => final_state (RecipeDatabase.delete_recipe rid (model st))
  end.
Proof.
  unfold delete_selected_recipe, bind, gets.
  destruct (get_selected_recipe_id (view st)); reflexivity.
Qed.

Lemma select_image_model (f : str) (b : bool) (st : App) :
  model (final_state (select_image f b st)) = model st.
Proof. unfold select_image. destruct (truthy f); reflexivity. Qed.

End ControllerFacts.

(** ** Titles stay non-empty and trimmed *)

Section TitleInvariant.

Import RecipeDatabase RecipeMainWindow RecipeController.

Lemma titles_ok_insert (db : Store) (v : Z) (t g s : str) (p : option str) :
  titles_ok db -> trimmed_nonempty t ->
  titles_ok {| rows := rows db ++ [(v, t, g, s, p)]; seq := v |}.
Proof.
  unfold titles_ok. simpl. intros H Ht.
  apply List.Forall_app. split; [exact H|].
  constructor; [exact Ht | constructor].
Qed.

Lemma titles_ok_update (db : Store) (rid : Z) (t g s : str) (p : option str) :
  titles_ok db -> trimmed_nonempty t ->
  titles_ok (final_state (RecipeDatabase.update_recipe rid t g s p db)).
Proof.
  unfold titles_ok. simpl. intros H Ht.
  apply List.Forall_map. eapply List.Forall_impl; [|exact H].
  intros r Hr. destruct (row_id r =? rid); [exact Ht | exact Hr].
Qed.

Lemma titles_ok_delete (db : Store) (rid : Z) :
  titles_ok db -> titles_ok (final_state (RecipeDatabase.delete_recipe rid db)).
Proof.
  unfold titles_ok. simpl. intros H.
  rewrite List.Forall_forall in *. intros r Hr.
  apply filter_In in Hr as [Hr _]. auto.
Qed.

Lemma blank_false_trimmed (t : str) :
  blank t = false -> trimmed_nonempty (strip t).
Proof.
  intros H. apply strip_trimmed_nonempty.
  rewrite truthy_strip, H. reflexivity.
Qed.

Lemma titles_ok_handle (i : intent) (st : App) :
  titles_ok (model st) -> titles_ok (model (handle i st)).
Proof.
  intros H. destruct i; simpl.
  - rewrite add_recipe_cases.
    destruct (negb (Mode_eqb (mode (view st)) ModeAdd)); [exact H|].
    destruct (blank (title_input (view st))) eqn:B; [exact H|].
    destruct (new_rowid (model st)); [|exact H].
    simpl. apply titles_ok_insert; [exact H | now apply blank_false_trimmed].
  - now rewrite edit_selected_recipe_model.
  - rewrite save_edited_recipe_model.
    destruct (current_recipe_id (view st)); [|exact H].
    destruct (blank (title_input (view st))) eqn:B; [exact H|].
    apply titles_ok_update; [exact H | now apply blank_false_trimmed].
  - now rewrite cancel_edit_model.
  - rewrite delete_selected_recipe_model.
    destruct (get_selected_recipe_id (view st)); [|exact H].
    now apply titles_ok_delete.
  - now rewrite select_image_model.
  - unfold bind, call_view, modify.
    now rewrite display_selected_recipe_model.
  - exact H.
Qed.

Lemma titles_ok_run (intents : list intent) :
  forall st : App, titles_ok (model st) -> titles_ok (model (run intents st)).
Proof.
  induction intents as [|i intents IH]; intros st H; [exact H|].
  simpl. apply IH. now apply titles_ok_handle.
Qed.

End TitleInvariant.

(** ** The claims about the controller *)

Section ControllerClaims.

Import RecipeDatabase RecipeMainWindow RecipeController.

(** Claim C1, as the code has it.  The blank-title check is the
    controller's: when the title input is empty or whitespace-only, the
    add slot returns [None] and leaves the store as it was (in add mode it
    changes nothing at all).  Consequently, from a store whose titles are
    non-empty and trimmed, every run of controller intents leaves every
    persisted recipe with a non-empty trimmed title. *)
Theorem blank_title_creates_no_row
    (st st0 : App) (intents : list intent) :
  blank (title_input (view st)) = true ->
  titles_ok (model st0) ->
  (exists st', add_recipe st = Returned VNone st' /\ model st' = model st
               /\ (mode (view st) = ModeAdd -> st' = st))
  /\ titles_ok (model (run intents st0)).
Proof.
  intros B H. split; [|now apply titles_ok_run].
  rewrite add_recipe_cases, B.
  destruct (Mode_eqb (mode (view st)) ModeAdd) eqn:E; simpl.
  - exists st. auto.
  - eexists. split; [reflexivity|]. split; [reflexivity|].
    intros Hm. apply Mode_eqb_eq in Hm. congruence.
Qed.

Lemma blank_title_creates_no_row_witness :
  (exists st',
      add_recipe {| model := create_table;
                    view := user_types (py "   ") (py "x") (py "y") RecipeMainWindow.init |} =
      Returned VNone st'
      /\ model st' = create_table
      /\ (ModeAdd = ModeAdd ->
          st' = {| model := create_table;
                   view := user_types (py "   ") (py "x") (py "y") RecipeMainWindow.init |}))
  /\ titles_ok
       (model (run [TypeText (py " Soup ") (py "Water") (py "Boil"); ClickAdd]
                 (RecipeController.init create_table))).
Proof.
  apply (blank_title_creates_no_row
           {| model := create_table;
              view := user_types (py "   ") (py "x") (py "y") RecipeMainWindow.init |}
           (RecipeController.init create_table)
           [TypeText (py " Soup ") (py "Water") (py "Boil"); ClickAdd]).
  - reflexivity.
  - constructor.
Defined.

(** Claim C1 as stated fails: the repository's [add_recipe] takes an empty
    and a whitespace-only title as it takes any other text and appends the
    row. *)
Lemma repository_accepts_blank_title :
  RecipeModel.add_recipe [] [] [] None create_table =
    Returned VNone {| rows := [(1, [], [], [], None)]; seq := 1 |}
  /\ RecipeModel.add_recipe (py "   ") [] [] None create_table =
    Returned VNone {| rows := [(1, py "   ", [], [], None)]; seq := 1 |}
  /\ ~ titles_ok {| rows := [(1, py "   ", [], [], None)]; seq := 1 |}.
Proof.
  split; [reflexivity|]. split; [reflexivity|].
  intros H. unfold titles_ok in H. simpl in H.
  apply List.Forall_inv in H. destruct H as [_ H].
  vm_compute in H. discriminate.
Qed.

(** Claim C3, as the code has it.  The trimming is the controller's: after
    the add slot has run in add mode on form fields [(t, g, s, p)] with a
    title that is not blank, [get_recipe_by_id] on the id of the appended
    row returns the recipe with [strip t], [strip g], [strip s] and [p].
    The repository's [add_recipe] passes its text to the store unchanged:
    the lookup returns the fields as they were given. *)
Theorem add_then_get_by_id
    (st : App) (v : Z) (t g s : str) (p : option str) :
  mode (view st) = ModeAdd ->
  get_input_data (view st) = (t, g, s, p) ->
  blank t = false ->
  new_rowid (model st) = Some v ->
  (exists st',
      add_recipe st = Returned VNone st'
      /\ rows (model st') = rows (model st) ++ [(v, strip t, strip g, strip s, p)]
      /\ RecipeModel.get_recipe_by_id v (model st') =
         Returned (Some (mkRecipe v (strip t) (strip g) (strip s) p)) (model st'))
  /\ (exists db',
        RecipeModel.add_recipe t g s p (model st) = Returned VNone db'
        /\ rows db' = rows (model st) ++ [(v, t, g, s, p)]
        /\ RecipeModel.get_recipe_by_id v db' =
           Returned (Some (mkRecipe v t g s p)) db').
Proof.
  intros Hm Hd Hb Hv. unfold get_input_data in Hd.
  inversion Hd as [[Ht Hg Hs Hp]]. split.
  - rewrite add_recipe_cases, Hm, Ht, Hb, Hv. simpl.
    eexists. split; [reflexivity|]. simpl. split; [reflexivity|].
    rewrite get_recipe_by_id_eq. simpl. f_equal.
    now apply scan_inserted.
  - rewrite add_recipe_eq. unfold insert_recipe. rewrite Hv.
    eexists. split; [reflexivity|]. simpl. split; [congruence|].
    rewrite get_recipe_by_id_eq. simpl. f_equal.
    rewrite Ht, Hg, Hs, Hp. now apply scan_inserted.
Qed.

End ControllerClaims.

Section InteractionClaims.

Import RecipeDatabase RecipeMainWindow RecipeController.

Lemma add_then_get_by_id_witness :
  let st := {| model := create_table;
               view := user_types (py " Soup ") (py "Water,Salt ") (py " Boil")
                         RecipeMainWindow.init |} in
  (exists st',
      add_recipe st = Returned VNone st'
      /\ rows (model st') = [(1, py "Soup", py "Water,Salt", py "Boil", None)]
      /\ RecipeModel.get_recipe_by_id 1 (model st') =
         Returned (Some (mkRecipe 1 (py "Soup") (py "Water,Salt") (py "Boil") None))
           (model st'))
  /\ (exists db',
        RecipeModel.add_recipe (py " Soup ") (py "Water,Salt ") (py " Boil") None
          create_table = Returned VNone db'
        /\ rows db' = [(1, py " Soup ", py "Water,Salt ", py " Boil", None)]
        /\ RecipeModel.get_recipe_by_id 1 db' =
           Returned (Some (mkRecipe 1 (py " Soup ") (py "Water,Salt ") (py " Boil") None))
             db').
Proof.
  intros st.
  apply (add_then_get_by_id st 1 (py " Soup ") (py "Water,Salt ") (py " Boil") None);
    reflexivity.
Defined.

(** Claim C3 as stated fails: a recipe added through the repository with
    the title " Soup " is read back with that title, not with "Soup". *)
Lemma repository_add_does_not_trim :
  let db' := final_state
               (RecipeModel.add_recipe (py " Soup ") (py " Water ") (py " Boil ") None
                  create_table) in
  RecipeModel.get_recipe_by_id 1 db' =
    Returned (Some (mkRecipe 1 (py " Soup ") (py " Water ") (py " Boil ") None)) db'
  /\ strip (py " Soup ") = py "Soup"
  /\ RecipeModel.get_recipe_by_id 1 db' <>
     Returned (Some (mkRecipe 1 (strip (py " Soup ")) (strip (py " Water "))
                       (strip (py " Boil ")) None)) db'.
Proof.
  intros db'. split; [reflexivity|]. split; [reflexivity|].
  vm_compute. discriminate.
Qed.

(** Claim C7.  When the add slot runs while the mode is not add, it
    returns without touching the store, clears the form, forgets the
    current recipe id and leaves the mode at add.  A second click right
    after changes nothing (the title is empty), so two clicks in a row
    create no record; once a title that is not blank has been typed, the
    second click appends exactly one row. *)
Theorem add_click_arms_first (st : App) :
  mode (view st) <> ModeAdd ->
  let st1 := {| model := model st; view := clear_inputs (view st) |} in
  add_recipe st = Returned VNone st1
  /\ title_input (view st1) = [] /\ ingredients_input (view st1) = []
  /\ instructions_input (view st1) = [] /\ selected_image_path (view st1) = None
  /\ current_recipe_id (view st1) = None
  /\ mode (view st1) = ModeAdd
  /\ add_recipe st1 = Returned VNone st1
  /\ run [ClickAdd; ClickAdd] st = st1
  /\ (forall (t g s : str) (v : Z),
        blank t = false ->
        new_rowid (model st) = Some v ->
        rows (model (run [ClickAdd; TypeText t g s; ClickAdd] st)) =
        rows (model st) ++ [(v, strip t, strip g, strip s, None)]).
Proof.
  intros Hm st1.
  assert (E : Mode_eqb (mode (view st)) ModeAdd = false).
  { destruct (Mode_eqb (mode (view st)) ModeAdd) eqn:E; [|reflexivity].
    apply Mode_eqb_eq in E. contradiction. }
  assert (H1 : add_recipe st = Returned VNone st1).
  { rewrite add_recipe_cases, E. reflexivity. }
  assert (H2 : add_recipe st1 = Returned VNone st1).
  { rewrite add_recipe_cases. reflexivity. }
  split; [exact H1|]. do 6 (split; [reflexivity|]).
  split; [exact H2|]. split.
  - unfold run. cbn [fold_left handle]. rewrite H1. cbn [final_state].
    rewrite H2. reflexivity.
  - intros t g s v Hb Hv.
    unfold run. cbn [fold_left handle]. rewrite H1. cbn [final_state].
    rewrite add_recipe_cases. simpl. rewrite Hb, Hv. reflexivity.
Qed.

Lemma add_click_arms_first_witness :
  let soup := mkRecipe 1 (py "Soup") (py "Water") (py "Boil") None in
  let st := {| model := {| rows := [(1, py "Soup", py "Water", py "Boil", None)];
                           seq := 1 |};
               view := set_mode ModeView
                         (show_recipe_details soup RecipeMainWindow.init) |} in
  let st1 := {| model := model st; view := clear_inputs (view st) |} in
  add_recipe st = Returned VNone st1
  /\ title_input (view st1) = [] /\ ingredients_input (view st1) = []
  /\ instructions_input (view st1) = [] /\ selected_image_path (view st1) = None
  /\ current_recipe_id (view st1) = None
  /\ mode (view st1) = ModeAdd
  /\ add_recipe st1 = Returned VNone st1
  /\ run [ClickAdd; ClickAdd] st = st1
  /\ (forall (t g s : str) (v : Z),
        blank t = false ->
        new_rowid (model st) = Some v ->
        rows (model (run [ClickAdd; TypeText t g s; ClickAdd] st)) =
        rows (model st) ++ [(v, strip t, strip g, strip s, None)]).
Proof.
  intros soup st st1.
  apply (add_click_arms_first st).
  simpl. discriminate.
Defined.


End InteractionClaims.

Section CancelWitness.

Import RecipeDatabase RecipeMainWindow RecipeController.


(** On the first state above the form held "Stew" as typed; after cancel
    it holds the stored "Soup" again. *)
Example cancel_edit_discards_typed_text :
  let soup := mkRecipe 1 (py "Soup") (py "Water") (py "Boil") None in
  let st_a :=
    {| model := {| rows := [(1, py "Soup", py "Water", py "Boil", None)]; seq := 1 |};
       view := user_types (py "Stew") (py "Stock") (py "Simmer")
                 (set_mode ModeEdit (show_recipe_details soup RecipeMainWindow.init)) |} in
  get_input_data (view st_a) = (py "Stew", py "Stock", py "Simmer", None)
  /\ get_input_data (view (final_state (cancel_edit st_a))) =
     (py "Soup", py "Water", py "Boil", None)
  /\ mode (view (final_state (cancel_edit st_a))) = ModeAdd.
Proof. repeat split. Qed.

End CancelWitness.


(** ** The scenarios of the specification, run on the embedding *)

Section Scenarios.

Import RecipeDatabase.

(** Add "Soup", then read everything back. *)
Example scenario_add_then_list :
  RecipeModel.get_all_recipes
    (final_state (RecipeModel.add_recipe (py "Soup") (py "Water,Salt") (py "Boil")
                    (Some []) create_table)) =
  Returned [mkRecipe 1 (py "Soup") (py "Water,Salt") (py "Boil") (Some [])]
    {| rows := [(1, py "Soup", py "Water,Salt", py "Boil", Some [])]; seq := 1 |}.
Proof. reflexivity. Qed.

(** Add "X" and "Y", delete the first: "Y" keeps id 2, and a later add gets
    id 3, not the freed id 1. *)
Example scenario_delete_keeps_ids :
  let db := final_state
              ((RecipeModel.add_recipe (py "X") [] [] None ;;
                RecipeModel.add_recipe (py "Y") [] [] None ;;
                RecipeModel.delete_recipe 1 ;;
                RecipeModel.delete_recipe 2 ;;
                RecipeModel.add_recipe (py "Z") [] [] None) create_table) in
  ids db = [3].
Proof. reflexivity. Qed.

(** Update of a stored recipe, then lookup by id. *)
Example scenario_update_then_get :
  let db := final_state
              ((RecipeModel.add_recipe (py "Soup") [] [] None ;;
                RecipeModel.update_recipe (mkRecipe 1 (py "Stew") [] [] None))
                 create_table) in
  RecipeModel.get_recipe_by_id 1 db =
  Returned (Some (mkRecipe 1 (py "Stew") [] [] None)) db.
Proof. reflexivity. Qed.

(** Once the largest rowid has been used, the insert raises and the store
    stays as it was. *)
Example scenario_rowid_exhausted :
  let db := {| rows := []; seq := MAX_ROWID |} in
  insert_recipe (py "Soup") [] [] None db = Raised OperationalError db.
Proof. reflexivity. Qed.

End Scenarios.


(** ** More about the store: keys, lookups, counts *)

Section StoreKeys.

Import RecipeDatabase.

Lemma ids_update (rid : Z) (t g s : str) (p : option str) (rs : list row) :
  map row_id (map (fun r => if row_id r =? rid then (row_id r, t, g, s, p) else r) rs) =
  map row_id rs.
Proof.
  rewrite map_map. apply map_ext. intros r.
  destruct (row_id r =? rid); reflexivity.
Qed.

Lemma ids_delete (rid : Z) (rs : list row) :
  map row_id (List.filter (fun r => negb (row_id r =? rid)) rs) =
  List.filter (fun i => negb (i =? rid)) (map row_id rs).
Proof.
  induction rs as [|r rs IH]; simpl; [reflexivity|].
  destruct (row_id r =? rid); simpl; [exact IH | now f_equal].
Qed.

Lemma sorted_filter (f : Z -> bool) (l : list Z) :
  StronglySorted Z.lt l -> StronglySorted Z.lt (List.filter f l).
Proof.
  induction 1 as [|a l Hs IH Ha]; simpl; [constructor|].
  destruct (f a); [|exact IH].
  constructor; [exact IH|].
  rewrite List.Forall_forall in *. intros x Hx.
  apply filter_In in Hx as [Hx _]. auto.
Qed.

Lemma sorted_snoc (l : list Z) (v : Z) :
  StronglySorted Z.lt l -> List.Forall (fun i => i < v) l ->
  StronglySorted Z.lt (l ++ [v]).
Proof.
  induction 1 as [|a l Hs IH Ha]; intros Hv; simpl.
  - constructor; constructor.
  - apply List.Forall_cons_iff in Hv as [Hav Hv].
    constructor; [now apply IH|].
    apply List.Forall_app. split; [exact Ha|].
    constructor; [exact Hav | constructor].
Qed.

Lemma wf_insert (db : Store) (v : Z) (r : row) :
  wf db -> new_rowid db = Some v -> row_id r = v ->
  wf {| rows := rows db ++ [r]; seq := v |}.
Proof.
  intros [Hs Hb] Hv Hr. apply new_rowid_fresh in Hv as [Hlt Hseq].
  unfold wf, ids in *. simpl. rewrite map_app. simpl. rewrite Hr. split.
  - now apply sorted_snoc.
  - apply List.Forall_app. split.
    + eapply List.Forall_impl; [|exact Hlt]. simpl. intros; lia.
    + constructor; [lia | constructor].
Qed.

Lemma wf_update (db : Store) (rid : Z) (t g s : str) (p : option str) :
  wf db -> wf (final_state (RecipeDatabase.update_recipe rid t g s p db)).
Proof.
  unfold wf, ids. simpl. now rewrite ids_update.
Qed.

Lemma wf_delete (db : Store) (rid : Z) :
  wf db -> wf (final_state (RecipeDatabase.delete_recipe rid db)).
Proof.
  unfold wf, ids. simpl. rewrite ids_delete. intros [Hs Hb]. split.
  - now apply sorted_filter.
  - rewrite List.Forall_forall in *. intros x Hx.
    apply filter_In in Hx as [Hx _]. auto.
Qed.

Lemma wf_insert_recipe (db : Store) (t g s : str) (p : option str) :
  wf db -> wf (final_state (insert_recipe t g s p db)).
Proof.
  intros H. unfold insert_recipe.
  destruct (new_rowid db) as [v|] eqn:E; simpl; [|exact H].
  now apply wf_insert.
Qed.

(** The rows of the table stay in ascending id order, so ids stay unique,
    and no id exceeds the AUTOINCREMENT counter: insert, update and delete
    each keep this. *)
Theorem store_operations_keep_keys_unique
    (db : Store) (rid : Z) (t g s : str) (p : option str) :
  wf db ->
  wf (final_state (insert_recipe t g s p db))
  /\ wf (final_state (RecipeDatabase.update_recipe rid t g s p db))
  /\ wf (final_state (RecipeDatabase.delete_recipe rid db))
  /\ List.NoDup (ids (final_state (insert_recipe t g s p db))).
Proof.
  intros H. split; [now apply wf_insert_recipe|].
  split; [now apply wf_update|]. split; [now apply wf_delete|].
  apply StronglySorted_lt_NoDup. now apply wf_insert_recipe.
Qed.

Lemma store_operations_keep_keys_unique_witness :
  let db := {| rows := [(1, py "X", [], [], None); (3, py "Y", [], [], None)];
               seq := 5 |} in
  wf (final_state (insert_recipe (py "Z") [] [] None db))
  /\ wf (final_state (RecipeDatabase.update_recipe 3 (py "Z") [] [] None db))
  /\ wf (final_state (RecipeDatabase.delete_recipe 3 db))
  /\ List.NoDup (ids (final_state (insert_recipe (py "Z") [] [] None db))).
Proof.
  intros db. apply (store_operations_keep_keys_unique db 3 (py "Z") [] [] None).
  unfold wf. simpl. split.
  - repeat first [apply SSorted_nil | apply SSorted_cons
                 | apply List.Forall_nil | apply List.Forall_cons | reflexivity].
  - repeat first [apply List.Forall_nil | apply List.Forall_cons | discriminate].
Defined.

(** The id of a deleted recipe is not given out again: every recipe added
    after the delete gets a larger id. *)
Theorem deleted_id_is_never_reused
    (db : Store) (rid : Z) (calls : list (str * str * str * option str)) :
  wf db -> In rid (ids db) ->
  List.Forall (fun v => rid < v)
    (fst (add_all calls (final_state (RecipeDatabase.delete_recipe rid db)))).
Proof.
  intros [_ Hb] Hin.
  destruct (add_all_spec calls (final_state (RecipeDatabase.delete_recipe rid db)))
    as (_ & _ & Habove).
  eapply List.Forall_impl; [|exact Habove].
  intros v [_ Hv]. simpl in Hv.
  rewrite List.Forall_forall in Hb. apply Hb in Hin. lia.
Qed.

Lemma deleted_id_is_never_reused_witness :
  List.Forall (fun v => 2 < v)
    (fst (add_all [(py "Z", [], [], None); (py "W", [], [], None)]
            (final_state
               (RecipeDatabase.delete_recipe 2
                  {| rows := [(1, py "X", [], [], None); (2, py "Y", [], [], None)];
                     seq := 2 |})))).
Proof.
  apply (deleted_id_is_never_reused
           {| rows := [(1, py "X", [], [], None); (2, py "Y", [], [], None)]; seq := 2 |}
           2 [(py "Z", [], [], None); (py "W", [], [], None)]).
  - unfold wf. simpl. split.
    + repeat first [apply SSorted_nil | apply SSorted_cons
                   | apply List.Forall_nil | apply List.Forall_cons | reflexivity].
    + repeat first [apply List.Forall_nil | apply List.Forall_cons | discriminate].
  - simpl. auto.
Defined.

End StoreKeys.

Section StoreLookups.

Import RecipeDatabase.

(** [get_recipe_by_id] never changes the store.  It returns [None] exactly
    when no stored row has the id; a recipe it returns has the id asked for
    and is one of those [get_all_recipes] returns. *)
Theorem get_recipe_by_id_finds_exactly_stored (db : Store) (rid : Z) :
  exists found,
    RecipeModel.get_recipe_by_id rid db = Returned found db
    /\ (found = None <-> ~ In rid (ids db))
    /\ (forall r, found = Some r ->
          id r = rid /\
          exists recipes, RecipeModel.get_all_recipes db = Returned recipes db
                          /\ In r recipes).
Proof.
  eexists. split; [apply get_recipe_by_id_eq|]. split.
  - split.
    + intros H Hin. apply scan_present in Hin as [r Hr]. congruence.
    + apply scan_absent.
  - intros r H. apply scan_some in H as [H1 H2].
    split; [exact H1|]. eexists. split; [reflexivity | exact H2].
Qed.

Lemma scan_updated (rid : Z) (t g s : str) (p : option str) (rs : list row) :
  In rid (map row_id rs) ->
  RecipeModel.scan rid
    (map RecipeModel.Recipe_of_row
       (map (fun r => if row_id r =? rid then (row_id r, t, g, s, p) else r) rs)) =
  Some (mkRecipe rid t g s p).
Proof.
  induction rs as [|x rs IH]; simpl; [tauto|].
  destruct (Z.eqb_spec (row_id x) rid) as [E|E].
  - intros _. simpl. rewrite E, Z.eqb_refl. reflexivity.
  - intros [H|H]; [contradiction|].
    rewrite id_Recipe_of_row.
    destruct (Z.eqb_spec (row_id x) rid); [contradiction|]. auto.
Qed.

(** After [update_recipe] on an id the store holds, [get_recipe_by_id] on
    that id returns the recipe with exactly the fields written; the ids in
    the table and their order are as before. *)
Theorem update_then_get_returns_written (db : Store) (recipe : Recipe) :
  In (id recipe) (ids db) ->
  exists db',
    RecipeModel.update_recipe recipe db = Returned VNone db'
    /\ RecipeModel.get_recipe_by_id (id recipe) db' = Returned (Some recipe) db'
    /\ ids db' = ids db
    /\ seq db' = seq db.
Proof.
  intros H. eexists. split; [reflexivity|]. simpl. split; [|split].
  - rewrite get_recipe_by_id_eq. simpl. f_equal.
    rewrite scan_updated by exact H. now destruct recipe.
  - unfold ids. simpl. apply ids_update.
  - reflexivity.
Qed.

Lemma update_then_get_returns_written_witness :
  let db := {| rows := [(1, py "Soup", py "Water", py "Boil", None)]; seq := 1 |} in
  let stew := mkRecipe 1 (py "Stew") (py "Stock") (py "Simmer") (Some (py "stew.png")) in
  exists db',
    RecipeModel.update_recipe stew db = Returned VNone db'
    /\ RecipeModel.get_recipe_by_id 1 db' = Returned (Some stew) db'
    /\ ids db' = ids db
    /\ seq db' = seq db.
Proof.
  intros db stew. apply (update_then_get_returns_written db stew).
  simpl. auto.
Defined.

Lemma filter_absent (rid : Z) (rs : list row) :
  ~ In rid (map row_id rs) ->
  List.filter (fun r => negb (row_id r =? rid)) rs = rs.
Proof.
  induction rs as [|x rs IH]; simpl; [reflexivity|].
  intros H. destruct (Z.eqb_spec (row_id x) rid) as [E|E]; [tauto|].
  simpl. f_equal. apply IH. tauto.
Qed.

(** [delete_recipe] on an id (an integer SQLite can hold) that no row has
    returns normally and leaves the store exactly as it was. *)
Theorem delete_missing_id_is_noop (db : Store) (rid : Z) :
  sqlite_int rid ->
  ~ In rid (ids db) ->
  RecipeDatabase.delete_recipe rid db = Returned VNone db
  /\ RecipeModel.delete_recipe rid db = Returned VNone db.
Proof.
  intros _ H.
  assert (E : RecipeDatabase.delete_recipe rid db = Returned VNone db).
  { unfold RecipeDatabase.delete_recipe. f_equal.
    apply store_eq. now apply filter_absent. }
  split; [exact E|].
  unfold RecipeModel.delete_recipe, bind, ret. now rewrite E.
Qed.

Lemma delete_missing_id_is_noop_witness :
  let db := {| rows := [(1, py "Soup", py "Water", py "Boil", None)]; seq := 1 |} in
  RecipeDatabase.delete_recipe 7 db = Returned VNone db
  /\ RecipeModel.delete_recipe 7 db = Returned VNone db.
Proof.
  intros db. apply (delete_missing_id_is_noop db 7).
  - split; discriminate.
  - simpl. intros [H|[]]. discriminate.
Defined.

Lemma delete_one_sorted (rid : Z) (rs : list row) :
  StronglySorted Z.lt (map row_id rs) -> In rid (map row_id rs) ->
  S (length (List.filter (fun r => negb (row_id r =? rid)) rs)) = length rs.
Proof.
  induction rs as [|x rs IH]; simpl; [tauto|].
  intros Hs Hin. inversion Hs as [|? ? Hs' Hx]; subst.
  destruct (Z.eqb_spec (row_id x) rid) as [E|E]; simpl.
  - f_equal. rewrite filter_absent; [reflexivity|].
    intros Hin'. rewrite List.Forall_forall in Hx. apply Hx in Hin'. lia.
  - f_equal. apply IH; [exact Hs'|]. destruct Hin; [contradiction | assumption].
Qed.

(** [delete_recipe] on an id the table holds removes exactly one row: the
    table is one row shorter, the id is gone, and every other id is still
    there. *)
Theorem delete_removes_exactly_one_row (db : Store) (rid : Z) :
  wf db -> In rid (ids db) ->
  exists db',
    RecipeModel.delete_recipe rid db = Returned VNone db'
    /\ S (length (rows db')) = length (rows db)
    /\ ~ In rid (ids db')
    /\ (forall j, j <> rid -> (In j (ids db') <-> In j (ids db))).
Proof.
  intros [Hs _] Hin. eexists. split; [reflexivity|]. simpl. split; [|split].
  - now apply delete_one_sorted.
  - apply delete_rows_absent.
  - intros j Hj. unfold ids. simpl. rewrite ids_delete, filter_In.
    destruct (Z.eqb_spec j rid); [contradiction|]. simpl. tauto.
Qed.

Lemma delete_removes_exactly_one_row_witness :
  let db := {| rows := [(1, py "X", [], [], None); (2, py "Y", [], [], None)];
               seq := 2 |} in
  exists db',
    RecipeModel.delete_recipe 1 db = Returned VNone db'
    /\ S (length (rows db')) = length (rows db)
    /\ ~ In 1 (ids db')
    /\ (forall j, j <> 1 -> (In j (ids db') <-> In j (ids db))).
Proof.
  intros db. apply (delete_removes_exactly_one_row db 1).
  - unfold wf. simpl. split.
    + repeat first [apply SSorted_nil | apply SSorted_cons
                   | apply List.Forall_nil | apply List.Forall_cons | reflexivity].
    + repeat first [apply List.Forall_nil | apply List.Forall_cons | discriminate].
  - simpl. auto.
Defined.

End StoreLookups.

(** ** The slots, case by case *)

Section SlotCases.

Import RecipeDatabase RecipeMainWindow RecipeController.

Lemma refresh_recipe_list_eq (st : App) :
  refresh_recipe_list st =
  Returned VNone
    {| model := model st;
       view := update_recipe_list (recipes_of (model st)) (view st) |}.
Proof. reflexivity. Qed.

Lemma save_edited_recipe_cases (st : App) :
  save_edited_recipe st =
  match current_recipe_id (view st) with
  | None => Returned VNone st
  | Some rid =>
      if blank (title_input (view st)) then Returned VNone st
      else
        let db' :=
          final_state
            (RecipeDatabase.update_recipe rid
               (strip (title_input (view st)))
               (strip (ingredients_input (view st)))
               (strip (instructions_input (view st)))
               (selected_image_path (view st)) (model st)) in
        let v1 := update_recipe_list (recipes_of db') (view st) in
        Returned VNone
          {| model := db';
             view := set_mode ModeView
                       match RecipeModel.scan rid (recipes_of db') with
                       | Some recipe => show_recipe_details recipe v1
                       | None => v1
                       end |}
  end.
Proof.
  unfold save_edited_recipe, bind, gets, get_current_recipe_id.
  destruct (current_recipe_id (view st)) as [rid|]; [|reflexivity].
  unfold get_input_data. rewrite truthy_strip, negb_involutive.
  destruct (blank (title_input (view st))); [reflexivity|].
  simpl. unfold recipes_of. simpl.
  match goal with
  | |- context [RecipeModel.scan ?a ?b] => destruct (RecipeModel.scan a b)
  end; reflexivity.
Qed.

Lemma delete_selected_recipe_cases (st : App) :
  delete_selected_recipe st =
  match get_selected_recipe_id (view st) with
  | None => Returned VNone st
  | Some rid =>
      let db' := final_state (RecipeDatabase.delete_recipe rid (model st)) in
      Returned VNone
        {| model := db';
           view := update_recipe_list (recipes_of db') (clear_inputs (view st)) |}
  end.
Proof.
  unfold delete_selected_recipe, bind, gets.
  destruct (get_selected_recipe_id (view st)); reflexivity.
Qed.

Lemma edit_selected_recipe_cases (st : App) :
  edit_selected_recipe st =
  match get_selected_recipe_id (view st) with
  | None => Returned VNone st
  | Some rid =>
      match RecipeModel.scan rid (recipes_of (model st)) with
      | Some recipe =>
          Returned VNone
            {| model := model st;
               view := set_mode ModeEdit (show_recipe_details recipe (view st)) |}
      | None => Returned VNone st
      end
  end.
Proof.
  unfold edit_selected_recipe, bind, gets.
  destruct (get_selected_recipe_id (view st)) as [rid|]; [|reflexivity].
  rewrite call_get_recipe_by_id. fold (recipes_of (model st)).
  destruct (RecipeModel.scan rid (recipes_of (model st))); reflexivity.
Qed.

Lemma display_selected_recipe_cases (st : App) :
  display_selected_recipe st =
  match get_selected_recipe_id (view st) with
  | None => Returned VNone st
  | Some rid =>
      if rid =? 0 then Returned VNone st
      else
        match RecipeModel.scan rid (recipes_of (model st)) with
        | Some recipe =>
            Returned VNone
              {| model := model st;
                 view := set_mode ModeView (show_recipe_details recipe (view st)) |}
        | None => Returned VNone st
        end
  end.
Proof.
  unfold display_selected_recipe, bind, gets.
  destruct (get_selected_recipe_id (view st)) as [rid|]; [|reflexivity].
  cbn [truthy_id]. destruct (rid =? 0); cbn [negb]; [reflexivity|].
  rewrite call_get_recipe_by_id. fold (recipes_of (model st)).
  destruct (RecipeModel.scan rid (recipes_of (model st))); reflexivity.
Qed.

Lemma cancel_edit_cases (st : App) :
  cancel_edit st =
  Returned VNone
    {| model := model st;
       view :=
         match current_recipe_id (view st) with
         | None => clear_inputs (view st)
         | Some rid =>
             if rid =? 0 then clear_inputs (view st)
             else
               set_mode ModeAdd
                 match RecipeModel.scan rid (recipes_of (model st)) with
                 | Some recipe => show_recipe_details recipe (view st)
                 | None => view st
                 end
         end |}.
Proof.
  unfold cancel_edit, bind, gets, get_current_recipe_id.
  destruct (current_recipe_id (view st)) as [rid|]; [|reflexivity].
  cbn [truthy_id]. destruct (rid =? 0); cbn [negb]; [reflexivity|].
  rewrite call_get_recipe_by_id. fold (recipes_of (model st)).
  destruct (RecipeModel.scan rid (recipes_of (model st))); reflexivity.
Qed.

Lemma select_image_cases (f : str) (b : bool) (st : App) :
  select_image f b st =
  Returned VNone
    {| model := model st;
       view := if truthy f then set_image_path f b (view st) else view st |}.
Proof.
  unfold select_image. destruct (truthy f); [reflexivity|].
  unfold ret. now rewrite app_eta.
Qed.

End SlotCases.

(** ** What every run of the application keeps *)

Section RunInvariants.

Import RecipeDatabase RecipeMainWindow RecipeController.

Lemma handle_select_row (k : nat) (st : App) :
  handle (SelectRow k) st =
  final_state
    (display_selected_recipe
       {| model := model st; view := user_selects k (view st) |}).
Proof. reflexivity. Qed.

(** The controller reaches the store only through the three writing
    statements of the data layer. *)
Lemma handle_store_step (i : intent) (st : App) :
  model (handle i st) = model st
  \/ (exists t g s p,
        model (handle i st) = final_state (insert_recipe t g s p (model st)))
  \/ (exists rid t g s p,
        model (handle i st) =
        final_state (RecipeDatabase.update_recipe rid t g s p (model st)))
  \/ (exists rid,
        model (handle i st) = final_state (RecipeDatabase.delete_recipe rid (model st))).
Proof.
  destruct i; simpl.
  - rewrite add_recipe_cases.
    destruct (negb (Mode_eqb (mode (view st)) ModeAdd)); [now left|].
    destruct (blank (title_input (view st))); [now left|].
    right. left.
    exists (strip (title_input (view st))), (strip (ingredients_input (view st))),
      (strip (instructions_input (view st))), (selected_image_path (view st)).
    unfold insert_recipe. destruct (new_rowid (model st)); reflexivity.
  - left. apply edit_selected_recipe_model.
  - rewrite save_edited_recipe_model.
    destruct (current_recipe_id (view st)) as [rid|]; [|now left].
    destruct (blank (title_input (view st))); [now left|].
    right. right. left. eauto 6.
  - left. apply cancel_edit_model.
  - rewrite delete_selected_recipe_model.
    destruct (get_selected_recipe_id (view st)) as [rid|]; [|now left].
    right. right. right. eauto.
  - left. apply select_image_model.
  - left. unfold bind, call_view, modify.
    now rewrite display_selected_recipe_model.
  - now left.
Qed.

Lemma run_store_invariant (P : Store -> Prop) :
  (forall db t g s p, P db -> P (final_state (insert_recipe t g s p db))) ->
  (forall db rid t g s p,
      P db -> P (final_state (RecipeDatabase.update_recipe rid t g s p db))) ->
  (forall db rid, P db -> P (final_state (RecipeDatabase.delete_recipe rid db))) ->
  forall intents st, P (model st) -> P (model (run intents st)).
Proof.
  intros Hi Hu Hd. induction intents as [|i intents IH]; intros st H; [exact H|].
  simpl. apply IH.
  destruct (handle_store_step i st)
    as [E|[(t & g & s & p & E)|[(rid & t & g & s & p & E)|(rid & E)]]];
    rewrite E; auto.
Qed.

Lemma ids_positive_insert (db : Store) (t g s : str) (p : option str) :
  ids_positive db -> ids_positive (final_state (insert_recipe t g s p db)).
Proof.
  intros [Hp Hs]. unfold insert_recipe.
  destruct (new_rowid db) as [v|] eqn:E; simpl; [|now split].
  apply new_rowid_fresh in E as [_ Hv].
  unfold ids_positive, ids. simpl. rewrite map_app. split; [|lia].
  apply List.Forall_app. split; [exact Hp|].
  constructor; [simpl; lia | constructor].
Qed.

Lemma ids_positive_update (db : Store) (rid : Z) (t g s : str) (p : option str) :
  ids_positive db ->
  ids_positive (final_state (RecipeDatabase.update_recipe rid t g s p db)).
Proof. unfold ids_positive, ids. simpl. now rewrite ids_update. Qed.

Lemma ids_positive_delete (db : Store) (rid : Z) :
  ids_positive db -> ids_positive (final_state (RecipeDatabase.delete_recipe rid db)).
Proof.
  unfold ids_positive, ids. simpl. rewrite ids_delete. intros [Hp Hs].
  split; [|exact Hs].
  rewrite List.Forall_forall in *. intros x Hx.
  apply filter_In in Hx as [Hx _]. auto.
Qed.

(** Whatever the user does, the table keeps its rows in ascending id order
    with no id twice and none above the counter; if its ids were all at
    least 1, as in a table this program created, they stay so. *)
Theorem every_run_keeps_ids_unique (intents : list intent) (st : App) :
  wf (model st) ->
  wf (model (run intents st))
  /\ List.NoDup (ids (model (run intents st)))
  /\ (ids_positive (model st) -> ids_positive (model (run intents st))).
Proof.
  intros H.
  assert (W : wf (model (run intents st))).
  { apply (run_store_invariant wf); auto using wf_insert_recipe, wf_update, wf_delete. }
  split; [exact W|]. split.
  - apply StronglySorted_lt_NoDup, W.
  - apply (run_store_invariant ids_positive);
      auto using ids_positive_insert, ids_positive_update, ids_positive_delete.
Qed.

Lemma every_run_keeps_ids_unique_witness :
  let st := RecipeController.init create_table in
  let intents := [TypeText (py "Soup") [] []; ClickAdd;
                  TypeText (py "Stew") [] []; ClickAdd;
                  SelectRow 0; ClickDelete;
                  TypeText (py "Cake") [] []; ClickAdd] in
  wf (model (run intents st))
  /\ List.NoDup (ids (model (run intents st)))
  /\ (ids_positive (model st) -> ids_positive (model (run intents st))).
Proof.
  intros st intents. apply (every_run_keeps_ids_unique intents st).
  unfold wf. simpl. split; constructor.
Defined.

End RunInvariants.

Section ViewInvariants.

Import RecipeDatabase RecipeMainWindow RecipeController.

Lemma items_of_update_ids (db : Store) : map snd (items_of db) = ids db.
Proof.
  unfold items_of, ids. rewrite !map_map. apply map_ext.
  intros r. apply id_Recipe_of_row.
Qed.

Lemma list_synced_handle (i : intent) (st : App) :
  list_synced st -> list_synced (handle i st).
Proof.
  unfold list_synced. intros H. destruct i; simpl.
  - rewrite add_recipe_cases.
    destruct (negb (Mode_eqb (mode (view st)) ModeAdd)); [exact H|].
    destruct (blank (title_input (view st))); [exact H|].
    destruct (new_rowid (model st)); [reflexivity | exact H].
  - rewrite edit_selected_recipe_cases.
    destruct (get_selected_recipe_id (view st)); [|exact H].
    destruct (RecipeModel.scan _ _); exact H.
  - rewrite save_edited_recipe_cases.
    destruct (current_recipe_id (view st)); [|exact H].
    destruct (blank (title_input (view st))); [exact H|].
    simpl. destruct (RecipeModel.scan _ _); reflexivity.
  - rewrite cancel_edit_cases. simpl.
    destruct (current_recipe_id (view st)) as [rid|]; [|exact H].
    destruct (rid =? 0); [exact H|].
    destruct (RecipeModel.scan _ _); exact H.
  - rewrite delete_selected_recipe_cases.
    destruct (get_selected_recipe_id (view st)); [reflexivity | exact H].
  - rewrite select_image_cases. simpl. destruct (truthy file_path); exact H.
  - fold (handle (SelectRow k) st). rewrite handle_select_row.
    rewrite display_selected_recipe_cases.
    destruct (get_selected_recipe_id _) as [rid|]; [|exact H].
    destruct (rid =? 0); [exact H|].
    destruct (RecipeModel.scan _ _); exact H.
  - exact H.
Qed.

Lemma scan_in_ids (rid : Z) (db : Store) (r : Recipe) :
  RecipeModel.scan rid (recipes_of db) = Some r -> In (id r) (ids db).
Proof.
  intros H. apply scan_some in H as [_ H]. unfold recipes_of in H.
  apply in_map_iff in H as [x [E Hx]]. subst r.
  rewrite id_Recipe_of_row. unfold ids. now apply in_map.
Qed.

Lemma current_ok_handle (i : intent) (st : App) :
  current_ok st -> current_ok (handle i st).
Proof.
  unfold current_ok. intros H. destruct i; simpl.
  - rewrite add_recipe_cases.
    destruct (negb (Mode_eqb (mode (view st)) ModeAdd)); [simpl; discriminate|].
    destruct (blank (title_input (view st))); [exact H|].
    destruct (new_rowid (model st)); [simpl; discriminate | exact H].
  - rewrite edit_selected_recipe_cases.
    destruct (get_selected_recipe_id (view st)) as [rid|]; [|exact H].
    destruct (RecipeModel.scan _ _) as [r|] eqn:F; [|exact H].
    simpl. intros n E. inversion E; subst. eapply scan_in_ids; exact F.
  - rewrite save_edited_recipe_cases.
    destruct (current_recipe_id (view st)) as [rid|] eqn:C;
      [|simpl; rewrite C; exact H].
    destruct (blank (title_input (view st))); [simpl; rewrite C; exact H|].
    simpl. destruct (RecipeModel.scan _ _) as [r|] eqn:F; simpl.
    + intros n E. inversion E; subst. eapply scan_in_ids in F. exact F.
    + rewrite C. intros n E. unfold ids. simpl. rewrite ids_update. now apply H.
  - rewrite cancel_edit_cases. simpl.
    destruct (current_recipe_id (view st)) as [rid|] eqn:C; [|simpl; discriminate].
    destruct (rid =? 0); [simpl; discriminate|].
    destruct (RecipeModel.scan _ _) as [r|] eqn:F; simpl.
    + intros n E. inversion E; subst. eapply scan_in_ids; exact F.
    + rewrite C. exact H.
  - rewrite delete_selected_recipe_cases.
    destruct (get_selected_recipe_id (view st)); [simpl; discriminate | exact H].
  - rewrite select_image_cases. simpl. destruct (truthy file_path); exact H.
  - fold (handle (SelectRow k) st). rewrite handle_select_row.
    rewrite display_selected_recipe_cases.
    destruct (get_selected_recipe_id _) as [rid|]; [|exact H].
    destruct (rid =? 0); [exact H|].
    simpl. destruct (RecipeModel.scan _ _) as [r|] eqn:F; [|exact H].
    simpl. intros n E. inversion E; subst. eapply scan_in_ids; exact F.
  - exact H.
Qed.

Lemma buttons_ok_set_mode (m : Mode) (v : View) : buttons_ok (set_mode m v).
Proof. destruct m; repeat split. Qed.

Lemma buttons_ok_show (r : Recipe) (v : View) :
  buttons_ok v -> buttons_ok (show_recipe_details r v).
Proof. exact (fun H => H). Qed.

Lemma buttons_ok_handle (i : intent) (st : App) :
  buttons_ok (view st) -> buttons_ok (view (handle i st)).
Proof.
  intros H. destruct i; simpl.
  - rewrite add_recipe_cases.
    destruct (negb (Mode_eqb (mode (view st)) ModeAdd)); [apply buttons_ok_set_mode|].
    destruct (blank (title_input (view st))); [exact H|].
    destruct (new_rowid (model st)); [apply buttons_ok_set_mode | exact H].
  - rewrite edit_selected_recipe_cases.
    destruct (get_selected_recipe_id (view st)); [|exact H].
    destruct (RecipeModel.scan _ _); [apply buttons_ok_set_mode | exact H].
  - rewrite save_edited_recipe_cases.
    destruct (current_recipe_id (view st)); [|exact H].
    destruct (blank (title_input (view st))); [exact H|].
    apply buttons_ok_set_mode.
  - rewrite cancel_edit_cases. simpl.
    destruct (current_recipe_id (view st)) as [rid|]; [|apply buttons_ok_set_mode].
    destruct (rid =? 0); apply buttons_ok_set_mode.
  - rewrite delete_selected_recipe_cases.
    destruct (get_selected_recipe_id (view st)); [|exact H].
    simpl. apply (buttons_ok_set_mode ModeAdd).
  - rewrite select_image_cases. simpl. destruct (truthy file_path); exact H.
  - fold (handle (SelectRow k) st). rewrite handle_select_row.
    rewrite display_selected_recipe_cases.
    destruct (get_selected_recipe_id _) as [rid|]; [|exact H].
    destruct (rid =? 0); [exact H|].
    destruct (RecipeModel.scan _ _); [apply buttons_ok_set_mode | exact H].
  - exact H.
Qed.

End ViewInvariants.

Section ReachableStates.

Import RecipeDatabase RecipeMainWindow RecipeController.

Lemma run_view_invariant (P : App -> Prop) :
  (forall i st, P st -> P (handle i st)) ->
  forall intents st, P st -> P (run intents st).
Proof.
  intros Hh. induction intents as [|i intents IH]; intros st H; [exact H|].
  simpl. apply IH. now apply Hh.
Qed.

Lemma selected_in_items (v : View) (n : Z) :
  get_selected_recipe_id v = Some n -> In n (map snd (recipe_list v)).
Proof.
  unfold get_selected_recipe_id.
  destruct (current_row v) as [k|]; [|discriminate].
  destruct (recipe_list v !! k) as [item|] eqn:E; [|discriminate].
  intros H. inversion H; subst.
  apply in_map. apply list_elem_of_In. eapply list_elem_of_lookup_2. exact E.
Qed.

(** From start-up on any database and through any sequence of intents, the
    list widget shows exactly the stored recipes, in storage order, each
    item carrying its title and id; so the id of a selected item is always
    the id of a stored recipe. *)
Theorem list_widget_always_shows_the_store (db : Store) (intents : list intent) :
  let st := run intents (RecipeController.init db) in
  recipe_list (view st) =
    map (fun recipe => (title recipe, id recipe)) (recipes_of (model st))
  /\ (forall n, get_selected_recipe_id (view st) = Some n -> In n (ids (model st))).
Proof.
  intros st.
  assert (H : list_synced st).
  { apply (run_view_invariant list_synced); [apply list_synced_handle|].
    reflexivity. }
  split; [exact H|].
  intros n Hn. apply selected_in_items in Hn.
  rewrite H, items_of_update_ids in Hn. exact Hn.
Qed.

Lemma current_ok_run (db : Store) (intents : list intent) (n : Z) :
  current_recipe_id (view (run intents (RecipeController.init db))) = Some n ->
  exists recipe,
    RecipeModel.scan n (recipes_of (model (run intents (RecipeController.init db)))) =
      Some recipe
    /\ id recipe = n.
Proof.
  intros C.
  assert (H : current_ok (run intents (RecipeController.init db))).
  { apply (run_view_invariant current_ok); [apply current_ok_handle|].
    intros k Hk. discriminate. }
  specialize (H n C). apply scan_present in H as [r Hr].
  exists r. split; [exact Hr|]. now apply scan_some in Hr.
Qed.

(** From start-up on any database and through any sequence of intents, the
    recipe whose id the form holds as current is in the store:
    [get_recipe_by_id] finds it. *)
Theorem current_recipe_is_always_stored (db : Store) (intents : list intent) :
  let st := run intents (RecipeController.init db) in
  match current_recipe_id (view st) with
  | None => True
  | Some n =>
      exists recipe,
        RecipeModel.get_recipe_by_id n (model st) = Returned (Some recipe) (model st)
        /\ id recipe = n
  end.
Proof.
  intros st.
  destruct (current_recipe_id (view st)) as [n|] eqn:C; [|exact I].
  apply current_ok_run in C as (r & Hr & Hid).
  exists r. rewrite get_recipe_by_id_eq. split; [now f_equal | exact Hid].
Qed.

(** From start-up on any database and through any sequence of intents,
    Save and Cancel are enabled exactly in edit mode, and Add exactly
    outside it. *)
Theorem buttons_always_follow_the_mode (db : Store) (intents : list intent) :
  let v := view (run intents (RecipeController.init db)) in
  add_button v = negb (Mode_eqb (mode v) ModeEdit)
  /\ save_button v = Mode_eqb (mode v) ModeEdit
  /\ cancel_button v = Mode_eqb (mode v) ModeEdit.
Proof.
  intros v. subst v.
  apply (run_view_invariant (fun st => buttons_ok (view st)));
    [apply buttons_ok_handle|].
  repeat split.
Qed.



End ReachableStates.

(** ** Save and delete *)

Section SaveDelete.

Import RecipeDatabase RecipeMainWindow RecipeController.

(** The save slot does nothing at all, to the store or to the window, when
    no recipe is loaded in the form or when the title is empty or
    whitespace-only. *)
Theorem save_without_recipe_or_title_is_noop (st : App) :
  current_recipe_id (view st) = None \/ blank (title_input (view st)) = true ->
  save_edited_recipe st = Returned VNone st.
Proof.
  intros H. rewrite save_edited_recipe_cases.
  destruct (current_recipe_id (view st)); [|reflexivity].
  destruct H as [H|H]; [discriminate|]. now rewrite H.
Qed.

Lemma save_without_recipe_or_title_is_noop_witness :
  let soup := mkRecipe 1 (py "Soup") (py "Water") (py "Boil") None in
  let st := {| model := {| rows := [(1, py "Soup", py "Water", py "Boil", None)];
                           seq := 1 |};
               view := user_types (py "  ") (py "Stock") (py "Simmer")
                         (set_mode ModeEdit
                            (show_recipe_details soup RecipeMainWindow.init)) |} in
  save_edited_recipe st = Returned VNone st.
Proof.
  intros soup st. apply (save_without_recipe_or_title_is_noop st).
  right. reflexivity.
Defined.

(** With a stored recipe loaded and a title that is not blank, the save slot
    writes the trimmed text of the form and the selected image path to that
    recipe and to no other row, refreshes the list from the store, shows the
    saved text in the form, keeps the recipe current and goes to view
    mode. *)
Theorem save_writes_the_trimmed_form (st : App) (rid : Z) :
  current_recipe_id (view st) = Some rid ->
  blank (title_input (view st)) = false ->
  In rid (ids (model st)) ->
  let written :=
    mkRecipe rid (strip (title_input (view st)))
      (strip (ingredients_input (view st)))
      (strip (instructions_input (view st)))
      (selected_image_path (view st)) in
  exists st',
    save_edited_recipe st = Returned VNone st'
    /\ RecipeModel.get_recipe_by_id rid (model st') =
       Returned (Some written) (model st')
    /\ ids (model st') = ids (model st)
    /\ others rid (model st') = others rid (model st)
    /\ mode (view st') = ModeView
    /\ title_input (view st') = title written
    /\ ingredients_input (view st') = ingredients written
    /\ instructions_input (view st') = instructions written
    /\ current_recipe_id (view st') = Some rid
    /\ recipe_list (view st') =
       map (fun recipe => (title recipe, id recipe)) (recipes_of (model st')).
Proof.
  intros C B Hin written.
  rewrite save_edited_recipe_cases, C, B. cbv zeta.
  match goal with
  | |- context [RecipeModel.scan rid (recipes_of ?d)] =>
      assert (Hs : RecipeModel.scan rid (recipes_of d) = Some written)
        by (apply scan_updated; exact Hin);
      rewrite Hs
  end.
  eexists. split; [reflexivity|]. simpl. repeat split.
  - rewrite get_recipe_by_id_eq. simpl. f_equal. now apply scan_updated.
  - unfold ids. simpl. apply ids_update.
  - unfold others. simpl. apply others_after_update.
Qed.

Lemma save_writes_the_trimmed_form_witness :
  let soup := mkRecipe 1 (py "Soup") (py "Water") (py "Boil") None in
  let st := {| model := {| rows := [(1, py "Soup", py "Water", py "Boil", None)];
                           seq := 1 |};
               view := user_types (py " Stew ") (py "Stock ") (py " Simmer")
                         (set_mode ModeEdit
                            (show_recipe_details soup RecipeMainWindow.init)) |} in
  let written := mkRecipe 1 (py "Stew") (py "Stock") (py "Simmer") None in
  exists st',
    save_edited_recipe st = Returned VNone st'
    /\ RecipeModel.get_recipe_by_id 1 (model st') =
       Returned (Some written) (model st')
    /\ ids (model st') = ids (model st)
    /\ others 1 (model st') = others 1 (model st)
    /\ mode (view st') = ModeView
    /\ title_input (view st') = title written
    /\ ingredients_input (view st') = ingredients written
    /\ instructions_input (view st') = instructions written
    /\ current_recipe_id (view st') = Some 1
    /\ recipe_list (view st') =
       map (fun recipe => (title recipe, id recipe)) (recipes_of (model st')).
Proof.
  intros soup st written.
  apply (save_writes_the_trimmed_form st 1).
  - reflexivity.
  - reflexivity.
  - simpl. auto.
Defined.

(** With nothing selected in the list the delete slot changes nothing.
    With an item selected it returns normally, having removed from the store
    every row with the selected id and no other (the counter is kept), so
    that [get_recipe_by_id] on that id returns [None]; the list is rebuilt
    from the store as the delete left it. *)
Theorem delete_slot_removes_the_selected_recipe (st : App) :
  match get_selected_recipe_id (view st) with
  | None => delete_selected_recipe st = Returned VNone st
  | Some rid =>
      exists st',
        delete_selected_recipe st = Returned VNone st'
        /\ rows (model st') = others rid (model st)
        /\ seq (model st') = seq (model st)
        /\ RecipeModel.get_recipe_by_id rid (model st') = Returned None (model st')
        /\ recipe_list (view st') =
           map (fun recipe => (title recipe, id recipe)) (recipes_of (model st'))
  end.
Proof.
  rewrite delete_selected_recipe_cases.
  destruct (get_selected_recipe_id (view st)) as [rid|]; [|reflexivity].
  eexists. split; [reflexivity|]. simpl.
  split; [reflexivity|]. split; [reflexivity|]. split; [|reflexivity].
  rewrite get_recipe_by_id_eq. simpl. f_equal.
  apply scan_absent. apply delete_rows_absent.
Qed.

End SaveDelete.

(** ** Selecting, editing, and saving unchanged *)

Section SelectEdit.

Import RecipeDatabase RecipeMainWindow RecipeController.

Lemma scan_lookup_sorted (rs : list row) (k : nat) (r : row) :
  StronglySorted Z.lt (map row_id rs) -> rs !! k = Some r ->
  RecipeModel.scan (row_id r) (map RecipeModel.Recipe_of_row rs) =
  Some (RecipeModel.Recipe_of_row r).
Proof.
  revert k. induction rs as [|x rs IH]; intros k Hs Hk; [discriminate|].
  simpl in Hs. inversion Hs as [|? ? Hs' Hx]; subst.
  simpl. rewrite id_Recipe_of_row. destruct k as [|k]; simpl in Hk.
  - inversion Hk; subst. now rewrite Z.eqb_refl.
  - destruct (Z.eqb_spec (row_id x) (row_id r)) as [E|E]; [|eauto].
    exfalso. rewrite List.Forall_forall in Hx.
    assert (Hin : In (row_id r) (map row_id rs)).
    { apply in_map. apply list_elem_of_In. eapply list_elem_of_lookup_2. exact Hk. }
    apply Hx in Hin. lia.
Qed.

Lemma selected_of_current (st : App) (k : nat) (r : row) :
  list_synced st -> current_row (view st) = Some k ->
  rows (model st) !! k = Some r ->
  get_selected_recipe_id (view st) = Some (row_id r).
Proof.
  unfold list_synced, get_selected_recipe_id. intros H Hc Hk.
  rewrite Hc, H. unfold items_of. rewrite !list_lookup_fmap, Hk. simpl.
  now rewrite id_Recipe_of_row.
Qed.

(** In a window whose list shows a store with unique ids, while the [k]-th
    item is the current one the selected id is the id of the [k]-th stored
    recipe; the edit slot then loads that recipe and goes to edit mode, and
    the display slot loads it and goes to view mode, except that it does
    nothing for a recipe whose id is 0.  Neither touches the store. *)
Theorem selecting_an_item_loads_that_recipe (st : App) (k : nat) (r : row) :
  wf (model st) ->
  list_synced st ->
  current_row (view st) = Some k ->
  rows (model st) !! k = Some r ->
  get_selected_recipe_id (view st) = Some (row_id r)
  /\ edit_selected_recipe st =
     Returned VNone
       {| model := model st;
          view := set_mode ModeEdit
                    (show_recipe_details (RecipeModel.Recipe_of_row r) (view st)) |}
  /\ display_selected_recipe st =
     Returned VNone
       (if row_id r =? 0 then st
        else {| model := model st;
                view := set_mode ModeView
                          (show_recipe_details (RecipeModel.Recipe_of_row r)
                             (view st)) |}).
Proof.
  intros [Hs _] Hl Hc Hk.
  assert (Hsel : get_selected_recipe_id (view st) = Some (row_id r)).
  { eapply selected_of_current; eassumption. }
  assert (Hscan : RecipeModel.scan (row_id r) (recipes_of (model st)) =
                  Some (RecipeModel.Recipe_of_row r)).
  { eapply scan_lookup_sorted; eassumption. }
  split; [exact Hsel|]. split.
  - rewrite edit_selected_recipe_cases, Hsel, Hscan. reflexivity.
  - rewrite display_selected_recipe_cases, Hsel.
    destruct (row_id r =? 0); [reflexivity|]. now rewrite Hscan.
Qed.

Lemma selecting_an_item_loads_that_recipe_witness :
  let r : row := (2, py "Stew", py "Stock", py "Simmer", Some []) in
  let db := {| rows := [(1, py "Soup", py "Water", py "Boil", None); r]; seq := 2 |} in
  let st := {| model := db;
               view := user_selects 1 (view (RecipeController.init db)) |} in
  get_selected_recipe_id (view st) = Some 2
  /\ edit_selected_recipe st =
     Returned VNone
       {| model := model st;
          view := set_mode ModeEdit
                    (show_recipe_details (RecipeModel.Recipe_of_row r) (view st)) |}
  /\ display_selected_recipe st =
     Returned VNone
       {| model := model st;
          view := set_mode ModeView
                    (show_recipe_details (RecipeModel.Recipe_of_row r) (view st)) |}.
Proof.
  intros r db st.
  apply (selecting_an_item_loads_that_recipe st 1 r).
  - unfold wf. simpl. split.
    + repeat first [apply SSorted_nil | apply SSorted_cons
                   | apply List.Forall_nil | apply List.Forall_cons | reflexivity].
    + repeat first [apply List.Forall_nil | apply List.Forall_cons | discriminate].
  - reflexivity.
  - reflexivity.
  - reflexivity.
Defined.

Lemma unique_row (rs : list row) (x r : row) :
  StronglySorted Z.lt (map row_id rs) ->
  In x rs -> In r rs -> row_id x = row_id r -> x = r.
Proof.
  induction rs as [|y rs IH]; simpl; [tauto|].
  intros Hs Hx Hr E. inversion Hs as [|? ? Hs' Hy]; subst.
  rewrite List.Forall_forall in Hy.
  assert (Hlt : forall z, In z rs -> row_id y < row_id z).
  { intros z Hz. apply Hy. now apply in_map. }
  destruct Hx as [Hx|Hx], Hr as [Hr|Hr]; subst.
  - reflexivity.
  - apply Hlt in Hr. lia.
  - apply Hlt in Hx. lia.
  - now apply IH.
Qed.

Lemma update_with_own_fields (rs : list row) (rid : Z) (t g s : str) (p : option str) :
  StronglySorted Z.lt (map row_id rs) -> In (rid, t, g, s, p) rs ->
  map (fun x => if row_id x =? rid then (row_id x, t, g, s, p) else x) rs = rs.
Proof.
  intros Hs Hr. rewrite <- (map_id rs) at 2.
  apply map_ext_in. intros x Hx.
  destruct (Z.eqb_spec (row_id x) rid) as [E|E]; [|reflexivity].
  assert (x = (rid, t, g, s, p)) by (eapply unique_row; eassumption).
  subst x. reflexivity.
Qed.

(** Saving a form that hands back exactly the fields of the stored current
    recipe, when its text is trimmed and its title is not blank, leaves the
    store exactly as it was: in a table with unique ids no row is
    rewritten to something else. *)
Theorem saving_unchanged_keeps_the_store
    (st : App) (rid : Z) (t g s : str) (p : option str) :
  wf (model st) ->
  In (rid, t, g, s, p) (rows (model st)) ->
  current_recipe_id (view st) = Some rid ->
  get_input_data (view st) = (t, g, s, p) ->
  blank t = false ->
  strip t = t -> strip g = g -> strip s = s ->
  model (final_state (save_edited_recipe st)) = model st.
Proof.
  intros [Hs _] Hin Hc Hd Hb Ht Hg Hi.
  unfold get_input_data in Hd. inversion Hd as [[Et Eg Es Ep]].
  rewrite save_edited_recipe_model, Hc, Et, Eg, Es, Hb, Ht, Hg, Hi.
  unfold RecipeDatabase.update_recipe. cbn [final_state].
  apply store_eq. rewrite Ep. now apply update_with_own_fields.
Qed.

Lemma saving_unchanged_keeps_the_store_witness :
  let stew := mkRecipe 2 (py "Stew") (py "Stock") (py "Simmer") (Some (py "stew.png")) in
  let db := {| rows := [(1, py "Soup", py "Water", py "Boil", None);
                        (2, py "Stew", py "Stock", py "Simmer", Some (py "stew.png"))];
               seq := 2 |} in
  let st := {| model := db;
               view := set_mode ModeEdit
                         (show_recipe_details stew (view (RecipeController.init db))) |} in
  model (final_state (save_edited_recipe st)) = model st.
Proof.
  intros stew db st.
  apply (saving_unchanged_keeps_the_store st 2
           (py "Stew") (py "Stock") (py "Simmer") (Some (py "stew.png"))).
  - unfold wf. simpl. split.
    + repeat first [apply SSorted_nil | apply SSorted_cons
                   | apply List.Forall_nil | apply List.Forall_cons | reflexivity].
    + repeat first [apply List.Forall_nil | apply List.Forall_cons | discriminate].
  - simpl. auto.
  - reflexivity.
  - reflexivity.
  - reflexivity.
  - reflexivity.
  - reflexivity.
  - reflexivity.
Defined.

End SelectEdit.

(** ** Adding with an image, and start-up *)

Section AddAndStartup.

Import RecipeDatabase RecipeMainWindow RecipeController.

(** A confirmed add puts the new recipe last in the list widget, under the
    trimmed title and the new id, after the items already shown; it empties
    the form, drops the selection and the current recipe, and stays in add
    mode. *)
Theorem add_appends_to_the_list_and_clears_the_form (st : App) (v : Z) :
  mode (view st) = ModeAdd ->
  blank (title_input (view st)) = false ->
  new_rowid (model st) = Some v ->
  exists st',
    add_recipe st = Returned VNone st'
    /\ recipe_list (view st') =
       items_of (model st) ++ [(strip (title_input (view st)), v)]
    /\ ids (model st') = ids (model st) ++ [v]
    /\ get_input_data (view st') = ([], [], [], None)
    /\ get_selected_recipe_id (view st') = None
    /\ current_recipe_id (view st') = None
    /\ mode (view st') = ModeAdd.
Proof.
  intros Hm Hb Hv. rewrite add_recipe_cases, Hm, Hb, Hv. simpl.
  eexists. split; [reflexivity|]. simpl. repeat split.
  - unfold items_of. now rewrite !map_app.
  - unfold ids. simpl. now rewrite map_app.
Qed.

Lemma add_appends_to_the_list_and_clears_the_form_witness :
  let st := {| model := {| rows := [(1, py "Soup", py "Water", py "Boil", None)];
                           seq := 1 |};
               view := user_types (py " Stew ") (py "Stock") (py "Simmer")
                         (update_recipe_list
                            [mkRecipe 1 (py "Soup") (py "Water") (py "Boil") None]
                            RecipeMainWindow.init) |} in
  exists st',
    add_recipe st = Returned VNone st'
    /\ recipe_list (view st') = items_of (model st) ++ [(strip (py " Stew "), 2)]
    /\ ids (model st') = ids (model st) ++ [2]
    /\ get_input_data (view st') = ([], [], [], None)
    /\ get_selected_recipe_id (view st') = None
    /\ current_recipe_id (view st') = None
    /\ mode (view st') = ModeAdd.
Proof.
  intros st. apply (add_appends_to_the_list_and_clears_the_form st 2); reflexivity.
Defined.



End AddAndStartup.

Section Startup.

Import RecipeDatabase RecipeMainWindow RecipeController Main.

Lemma populate_nonempty (c k : str) (ec ek : bool) (db : Store) :
  rows db <> [] -> populate_sample_data c k ec ek db = Returned VNone db.
Proof.
  intros H.
  cbv beta iota delta [populate_sample_data bind RecipeModel.get_all_recipes
                       RecipeDatabase.get_all_recipes ret].
  destruct (rows db) as [|r rs]; [contradiction | reflexivity].
Qed.

Lemma populate_result (c k : str) (ec ek : bool) (db : Store) :
  rows db = [] ->
  populate_sample_data c k ec ek db =
  (RecipeModel.add_recipe
     (py "Spaghetti Carbonara")
     (py "Spaghetti, Eggs, Parmesan cheese, Bacon, Pepper")
     (py "1. Boil pasta." ++ nl ++ py "2. Fry bacon." ++ nl ++
      py "3. Mix eggs and cheese." ++ nl ++ py "4. Combine all with pasta.")
     (if ec then Some c else None) ;;
   RecipeModel.add_recipe
     (py "Chocolate Cake")
     (py "Flour, Cocoa powder, Sugar, Eggs, Butter, Baking powder")
     (py "1. Mix dry ingredients." ++ nl ++ py "2. Add wet ingredients." ++ nl ++
      py "3. Bake at 180" ++ [176%N] ++ py "C for 35 min.")
     (if ek then Some k else None) ;;
   ret VNone) db.
Proof.
  intros E.
  cbv beta iota delta [populate_sample_data bind RecipeModel.get_all_recipes
                       RecipeDatabase.get_all_recipes ret].
  rewrite E. reflexivity.
Qed.

Lemma two_adds (t1 g1 s1 t2 g2 s2 : str) (p1 p2 : option str) (db : Store) :
  (RecipeModel.add_recipe t1 g1 s1 p1 ;;
   RecipeModel.add_recipe t2 g2 s2 p2 ;; ret VNone) db =
  match new_rowid db with
  | None => Raised OperationalError db
  | Some v1 =>
      let db1 := {| rows := rows db ++ [(v1, t1, g1, s1, p1)]; seq := v1 |} in
      match new_rowid db1 with
      | None => Raised OperationalError db1
      | Some v2 =>
          Returned VNone
            {| rows := rows db1 ++ [(v2, t2, g2, s2, p2)]; seq := v2 |}
      end
  end.
Proof.
  unfold bind at 1. rewrite add_recipe_eq. unfold insert_recipe at 1.
  destruct (new_rowid db) as [v1|]; [|reflexivity].
  unfold bind at 1. rewrite add_recipe_eq. unfold insert_recipe at 1.
  cbv zeta.
  destruct (new_rowid _) as [v2|]; reflexivity.
Qed.

(** [populate_sample_data] leaves a store that holds any recipe exactly as
    it is, so running it a second time changes nothing.  On an empty table
    with room for two more ids it appends the two samples, "Spaghetti
    Carbonara" then "Chocolate Cake", with consecutive fresh ids, each with
    its image path only if the file exists. *)
Theorem populate_sample_data_seeds_only_once
    (c k : str) (ec ek : bool) (db : Store) :
  let p := populate_sample_data c k ec ek in
  (rows db <> [] -> p db = Returned VNone db)
  /\ (p ;; p) db = p db
  /\ (rows db = [] -> 0 <= seq db < MAX_ROWID - 1 ->
      exists g1 s1 g2 s2,
        p db =
        Returned VNone
          {| rows := [(seq db + 1, py "Spaghetti Carbonara", g1, s1,
                       if ec then Some c else None);
                      (seq db + 2, py "Chocolate Cake", g2, s2,
                       if ek then Some k else None)];
             seq := seq db + 2 |}).
Proof.
  intros p. split; [apply populate_nonempty|]. split.
  - destruct (rows db) as [|r rs] eqn:E.
    + unfold bind at 1. unfold p at 1 3.
      rewrite populate_result by exact E. rewrite two_adds.
      destruct (new_rowid db) as [v1|]; [|reflexivity].
      cbv zeta. destruct (new_rowid _) as [v2|]; [|reflexivity].
      unfold p. apply populate_nonempty. simpl. rewrite E. discriminate.
    + unfold bind, p. rewrite !populate_nonempty by (rewrite E; discriminate).
      reflexivity.
  - intros E Hseq. unfold p. rewrite populate_result by exact E.
    rewrite two_adds. unfold new_rowid at 1. rewrite E. cbn [last_rowid].
    destruct (Z.eqb_spec (seq db) MAX_ROWID) as [F|F]; [unfold MAX_ROWID in *; lia|].
    replace (Z.max 1 (seq db + 1)) with (seq db + 1) by lia.
    cbv zeta. unfold new_rowid. cbn [rows seq app last_rowid row_id].
    destruct (Z.eqb_spec (seq db + 1) MAX_ROWID) as [G|G];
      [unfold MAX_ROWID in *; lia|].
    replace (Z.max (seq db + 1 + 1) (seq db + 1 + 1)) with (seq db + 2) by lia.
    do 4 eexists. reflexivity.
Qed.

End Startup.

Section MainStartup.

Import RecipeDatabase RecipeMainWindow RecipeController Main.

Lemma main_eq (c k : str) (ec ek : bool) (db : Store) :
  main c k ec ek db =
  match populate_sample_data c k ec ek db with
  | Returned _ db' =>
      Returned VNone
        {| model := db';
           view := update_recipe_list (recipes_of db')
                     (update_recipe_list (recipes_of db) RecipeMainWindow.init) |}
  | Raised e db' =>
      Raised e
        {| model := db';
           view := update_recipe_list (recipes_of db) RecipeMainWindow.init |}
  end.
Proof.
  unfold main, bind, call_model, RecipeController.init.
  rewrite refresh_recipe_list_eq. cbn [final_state model view].
  destruct (populate_sample_data c k ec ek db); reflexivity.
Qed.

(** When start-up completes, the window is in add mode with an empty form,
    the list shows exactly the stored recipes, and the store is not empty;
    a database that already held recipes is left as it was found.  Start-up
    can only fail on a database whose table was empty. *)
Theorem startup_shows_a_nonempty_store
    (c k : str) (ec ek : bool) (db : Store) :
  match main c k ec ek db with
  | Returned _ st =>
      recipe_list (view st) =
        map (fun recipe => (title recipe, id recipe)) (recipes_of (model st))
      /\ rows (model st) <> []
      /\ (rows db <> [] -> model st = db)
      /\ mode (view st) = ModeAdd
      /\ get_input_data (view st) = ([], [], [], None)
      /\ current_recipe_id (view st) = None
  | Raised _ _ => rows db = []
  end.
Proof.
  rewrite main_eq. destruct (rows db) as [|r rs] eqn:E.
  - rewrite populate_result by exact E. rewrite two_adds.
    destruct (new_rowid db) as [v1|]; [|reflexivity].
    cbv zeta. destruct (new_rowid _) as [v2|]; [|reflexivity].
    split; [reflexivity|]. split.
    { cbn [model rows]. try rewrite E. simpl. discriminate. }
    split; [intros H; congruence|].
    repeat split.
  - rewrite populate_nonempty by (rewrite E; discriminate).
    split; [reflexivity|]. split.
    { cbn [model]. try rewrite E. discriminate. }
    repeat split.
Qed.

End MainStartup.
